(** * Trading account simulator: the account ledgers

    The repository holds two ledgers, each a Python class [Account] next to
    a price function [get_share_price]:

    - [AccountsWorking]: crew/engineering_team/output/verified_outputs/accounts_working.py
    - [Accounts]:        3_crew/engineering_team/output/accounts.py

    and, in crew/engineering_team/output/test_accounts.py, the tests of the
    first one together with the class they were run against, of which
    [TestAccounts] embeds the valuation loop.

    Both ledgers are embedded below statement by statement.  A method is a function
    from the object before the call to an outcome (return value or raised
    exception) and the object after the call, so that what a raising call
    leaves behind is part of the model.

    Conventions of the embedding:
    - Python [float] amounts are exact rationals ([Qc]); rounding, infinities
      and NaN are outside the model.  Python [int] quantities are [Z].
    - [datetime.now()] is an argument [now] of every recording method.
    - [get_share_price] is looked up in the module at call time (the tests
      patch it), so every method takes the price function as an argument;
      the functions the two files define are [get_share_price] below.
    - [str.upper] is modelled on ASCII strings.
    - exception messages are dropped; an exception is its class and the
      error kind of its raise site. *)

From Stdlib Require Import ZArith QArith Qcanon String Ascii List.
From stdpp Require Import base numbers option list strings gmap.
Import ListNotations.

(** ** Python-level vocabulary shared by both ledgers *)

Module Py.

(** Exception classes raised by the two files. *)
Inductive py_exception : Type :=
  | TradingError
  | ValueError
  | InsufficientFundsError
  | InsufficientSharesError.

(** What a raise site reports. *)
Inductive error_kind : Type :=
  | InvalidAmount
  | InvalidQuantity
  | InsufficientFunds
  | InsufficientShares
  | UnknownSymbol.

Inductive outcome (A : Type) : Type :=
  | Returned (a : A)
  | Raised (c : py_exception) (k : error_kind).
Arguments Returned {A} a.
Arguments Raised {A} c k.

(** A method of an object of type [S] returning an [A]. *)
Definition method (S A : Type) : Type := S -> outcome A * S.

Section Method.
Context {S : Type}.

Definition ret {A : Type} (a : A) : method S A :=
  fun self => (Returned a, self).

Definition bind {A B : Type} (m : method S A) (k : A -> method S B)
  : method S B :=
  fun self =>
    match m self with
    | (Returned a, self') => k a self'
    | (Raised c e, self') => (Raised c e, self')
    end.

Definition raise {A : Type} (c : py_exception) (k : error_kind)
  : method S A :=
  fun self => (Raised c k, self).

(** [if b: raise c(k)] *)
Definition raise_if (b : bool) (c : py_exception) (k : error_kind)
  : method S unit :=
  if b then raise c k else ret tt.

(** Reading an attribute, and an assignment to [self]. *)
Definition read {A : Type} (f : S -> A) : method S A :=
  fun self => (Returned (f self), self).

Definition assign (f : S -> S) : method S unit :=
  fun self => (Returned tt, f self).
End Method.

#[global] Instance method_ret {S : Type} : MRet (method S) :=
  fun A a => ret a.
#[global] Instance method_bind {S : Type} : MBind (method S) :=
  fun A B k m => bind m k.

(** The price function as the ledger sees it: [None] stands for the
    [ValueError] of an unknown symbol. *)
Definition oracle : Type := string -> option Qc.

Definition lookup_price {S : Type} (get_share_price : oracle)
    (symbol : string) : method S Qc :=
  match get_share_price symbol with
  | Some price => ret price
  | None => raise ValueError UnknownSymbol
  end.

(** [float * int] *)
Definition of_int (n : Z) : Qc := Qc_of_Z n.

(** A decimal literal [n/d]. *)
Definition dec (n : Z) (d : positive) : Qc := Q2Qc (n # d).

(** [str.upper] on ASCII: a..z (97..122) move down by 32. *)
Definition upper_ascii (c : ascii) : ascii :=
  let n := nat_of_ascii c in
  if (97 <=? n)%nat && (n <=? 122)%nat then ascii_of_nat (n - 32) else c.

Fixpoint upper (s : string) : string :=
  match s with
  | EmptyString => EmptyString
  | String c r => String (upper_ascii c) (upper r)
  end.

(** [dict.get(key, 0)] *)
Definition get0 (d : gmap string Z) (key : string) : Z :=
  default 0%Z (d !! key).

End Py.
Import Py.

Local Open Scope Qc_scope.

(** ** accounts_working.py *)

Module AccountsWorking.

Definition STOCK_PRICES : gmap string Qc :=
  list_to_map [("AAPL", dec 150 1); ("TSLA", dec 850 1); ("GOOGL", dec 2500 1)].

Definition get_share_price : oracle :=
  fun symbol =>
    let symbol := upper symbol in
    STOCK_PRICES !! symbol.

Record transaction : Type := {
  timestamp : Z;
  type : string;
  symbol : string;
  quantity : Z;
  price_per_share : Qc;
  cash_impact : Qc;
  balance_after : Qc
}.

Record Account : Type := {
  account_holder_name : string;
  cash_balance : Qc;
  initial_deposit : Qc;
  holdings : gmap string Z;
  transaction_history : list transaction
}.

Definition __init__ (account_holder_name : string) (initial_deposit : Qc)
  : Account :=
  {| account_holder_name := account_holder_name;
     cash_balance := initial_deposit;
     initial_deposit := initial_deposit;
     holdings := ∅;
     transaction_history := [] |}.

Definition set_cash_balance (v : Qc) (self : Account) : Account :=
  {| account_holder_name := account_holder_name self;
     cash_balance := v;
     initial_deposit := initial_deposit self;
     holdings := holdings self;
     transaction_history := transaction_history self |}.

Definition set_holdings (v : gmap string Z) (self : Account) : Account :=
  {| account_holder_name := account_holder_name self;
     cash_balance := cash_balance self;
     initial_deposit := initial_deposit self;
     holdings := v;
     transaction_history := transaction_history self |}.

(** [self.transaction_history.append(t)] *)
Definition append (t : transaction) : method Account unit :=
  assign (fun self =>
    {| account_holder_name := account_holder_name self;
       cash_balance := cash_balance self;
       initial_deposit := initial_deposit self;
       holdings := holdings self;
       transaction_history := transaction_history self ++ [t] |}).

Definition deposit (now : Z) (amount : Qc) : method Account unit :=
  raise_if (bool_decide (amount <= 0)) TradingError InvalidAmount ;;
  assign (fun self => set_cash_balance (cash_balance self + amount) self) ;;
  balance ← read cash_balance ;
  append {| timestamp := now; type := "Deposit"; symbol := "CASH";
            quantity := 1; price_per_share := amount;
            cash_impact := amount; balance_after := balance |}.

Definition withdraw (now : Z) (amount : Qc) : method Account unit :=
  raise_if (bool_decide (amount <= 0)) TradingError InvalidAmount ;;
  balance ← read cash_balance ;
  raise_if (bool_decide (balance < amount)) TradingError InsufficientFunds ;;
  assign (fun self => set_cash_balance (cash_balance self - amount) self) ;;
  balance ← read cash_balance ;
  append {| timestamp := now; type := "Withdrawal"; symbol := "CASH";
            quantity := 1; price_per_share := amount;
            cash_impact := - amount; balance_after := balance |}.

Definition buy_shares (get_share_price : oracle) (now : Z)
    (symbol : string) (quantity : Z) : method Account unit :=
  let symbol := upper symbol in
  raise_if (bool_decide (quantity <= 0)%Z) TradingError InvalidQuantity ;;
  price ← lookup_price get_share_price symbol ;
  let cost := price * of_int quantity in
  balance ← read cash_balance ;
  raise_if (bool_decide (balance < cost)) TradingError InsufficientFunds ;;
  assign (fun self => set_cash_balance (cash_balance self - cost) self) ;;
  assign (fun self =>
    set_holdings
      (<[symbol := (get0 (holdings self) symbol + quantity)%Z]> (holdings self))
      self) ;;
  balance ← read cash_balance ;
  append {| timestamp := now; type := "Buy"; symbol := symbol;
            quantity := quantity; price_per_share := price;
            cash_impact := - cost; balance_after := balance |}.

(** [symbol not in self.holdings or self.holdings[symbol] < quantity] *)
Definition lacks_shares (h : gmap string Z) (symbol : string) (quantity : Z)
  : bool :=
  match h !! symbol with
  | None => true
  | Some held => bool_decide (held < quantity)%Z
  end.

(** [self.holdings[symbol] -= quantity] runs only where the key is present
    (the check before it raised otherwise), so the in-place update is
    [alter]. *)
Definition sell_shares (get_share_price : oracle) (now : Z)
    (symbol : string) (quantity : Z) : method Account unit :=
  let symbol := upper symbol in
  raise_if (bool_decide (quantity <= 0)%Z) TradingError InvalidQuantity ;;
  h ← read holdings ;
  raise_if (lacks_shares h symbol quantity) TradingError InsufficientShares ;;
  price ← lookup_price get_share_price symbol ;
  let proceeds := price * of_int quantity in
  assign (fun self => set_cash_balance (cash_balance self + proceeds) self) ;;
  assign (fun self =>
    set_holdings (alter (fun held => (held - quantity)%Z) symbol (holdings self))
      self) ;;
  h ← read holdings ;
  (if bool_decide (h !! symbol = Some 0%Z)
   then assign (fun self => set_holdings (delete symbol (holdings self)) self)
   else ret tt) ;;
  balance ← read cash_balance ;
  append {| timestamp := now; type := "Sell"; symbol := symbol;
            quantity := quantity; price_per_share := price;
            cash_impact := proceeds; balance_after := balance |}.

Definition get_balance : method Account Qc := read cash_balance.

(** The loop of [calculate_current_holdings_value] over
    [self.holdings.items()]: no exception handler around the price call. *)
Fixpoint sum_items (get_share_price : oracle) (items : list (string * Z))
    (total_value : Qc) : method Account Qc :=
  match items with
  | [] => ret total_value
  | (symbol, quantity) :: rest =>
      price ← lookup_price get_share_price symbol ;
      sum_items get_share_price rest (total_value + price * of_int quantity)
  end.

Definition calculate_current_holdings_value (get_share_price : oracle)
  : method Account Qc :=
  h ← read holdings ;
  sum_items get_share_price (map_to_list h) 0.

Definition calculate_portfolio_value (get_share_price : oracle)
  : method Account Qc :=
  balance ← read cash_balance ;
  value ← calculate_current_holdings_value get_share_price ;
  ret (balance + value).

Definition calculate_profit_loss (get_share_price : oracle)
  : method Account Qc :=
  value ← calculate_portfolio_value get_share_price ;
  baseline ← read initial_deposit ;
  ret (value - baseline).

(** The four mutating calls a caller can make, and a caller that goes on
    after an exception with the object as the call left it. *)
Inductive call : Type :=
  | Deposit (amount : Qc)
  | Withdraw (amount : Qc)
  | Buy (symbol : string) (quantity : Z)
  | Sell (symbol : string) (quantity : Z).

Definition invoke (get_share_price : oracle) (now : Z) (c : call)
  : method Account unit :=
  match c with
  | Deposit amount => deposit now amount
  | Withdraw amount => withdraw now amount
  | Buy symbol quantity => buy_shares get_share_price now symbol quantity
  | Sell symbol quantity => sell_shares get_share_price now symbol quantity
  end.

Definition step (get_share_price : oracle) (self : Account) (c : Z * call)
  : Account :=
  snd (invoke get_share_price (fst c) (snd c) self).

Definition run (get_share_price : oracle) (cs : list (Z * call))
    (self : Account) : Account :=
  fold_left (step get_share_price) cs self.

End AccountsWorking.

(** ** accounts.py (3_crew) *)

Module Accounts.

(** The price function of this file has an [else] branch: any symbol it
    does not list is priced at 100.00, and no exception is raised. *)
Definition get_share_price : oracle :=
  fun symbol =>
    if bool_decide (symbol = "AAPL") then Some (dec 17050 100)
    else if bool_decide (symbol = "TSLA") then Some (dec 750 1)
    else if bool_decide (symbol = "GOOGL") then Some (dec 250025 100)
    else Some (dec 100 1).

(** The symbols the [if]/[elif] chain lists; the rest are what the source
    calls unknown symbols. *)
Definition listed (symbol : string) : bool :=
  bool_decide (symbol = "AAPL") || bool_decide (symbol = "TSLA")
  || bool_decide (symbol = "GOOGL").

Record transaction : Type := {
  timestamp : Z;
  type : string;
  symbol : option string;
  quantity : option Z;
  price : option Qc;
  amount : Qc
}.

Record Account : Type := {
  account_id : string;
  balance : Qc;
  holdings : gmap string Z;
  transactions : list transaction;
  initial_deposit_total : Qc
}.

Definition __init__ (account_id : string) : Account :=
  {| account_id := account_id;
     balance := 0;
     holdings := ∅;
     transactions := [];
     initial_deposit_total := 0 |}.

Definition set_balance (v : Qc) (self : Account) : Account :=
  {| account_id := account_id self;
     balance := v;
     holdings := holdings self;
     transactions := transactions self;
     initial_deposit_total := initial_deposit_total self |}.

Definition set_holdings (v : gmap string Z) (self : Account) : Account :=
  {| account_id := account_id self;
     balance := balance self;
     holdings := v;
     transactions := transactions self;
     initial_deposit_total := initial_deposit_total self |}.

Definition set_initial_deposit_total (v : Qc) (self : Account) : Account :=
  {| account_id := account_id self;
     balance := balance self;
     holdings := holdings self;
     transactions := transactions self;
     initial_deposit_total := v |}.

Definition _record_transaction (now : Z) (type : string) (amount : Qc)
    (symbol : option string) (quantity : option Z) (price : option Qc)
  : method Account unit :=
  assign (fun self =>
    {| account_id := account_id self;
       balance := balance self;
       holdings := holdings self;
       transactions :=
         transactions self
         ++ [ {| timestamp := now; type := type; symbol := symbol;
                 quantity := quantity; price := price; amount := amount |} ];
       initial_deposit_total := initial_deposit_total self |}).

Definition deposit (now : Z) (amount : Qc) : method Account unit :=
  raise_if (bool_decide (amount <= 0)) ValueError InvalidAmount ;;
  assign (fun self => set_balance (balance self + amount) self) ;;
  assign (fun self =>
    set_initial_deposit_total (initial_deposit_total self + amount) self) ;;
  _record_transaction now "DEPOSIT" amount None None None.

Definition withdraw (now : Z) (amount : Qc) : method Account unit :=
  raise_if (bool_decide (amount <= 0)) ValueError InvalidAmount ;;
  b ← read balance ;
  raise_if (bool_decide (b < amount)) InsufficientFundsError InsufficientFunds ;;
  assign (fun self => set_balance (balance self - amount) self) ;;
  _record_transaction now "WITHDRAW" (- amount) None None None.

Definition buy_shares (get_share_price : oracle) (now : Z)
    (symbol : string) (quantity : Z) : method Account unit :=
  raise_if (bool_decide (quantity <= 0)%Z) ValueError InvalidQuantity ;;
  price ← lookup_price get_share_price symbol ;
  let cost := price * of_int quantity in
  b ← read balance ;
  raise_if (bool_decide (b < cost)) InsufficientFundsError InsufficientFunds ;;
  assign (fun self => set_balance (balance self - cost) self) ;;
  assign (fun self =>
    set_holdings
      (<[symbol := (get0 (holdings self) symbol + quantity)%Z]> (holdings self))
      self) ;;
  _record_transaction now "BUY" (- cost) (Some symbol) (Some quantity)
    (Some price).

(** [self.holdings[symbol] -= quantity] runs only where the key is present:
    the held quantity is at least [quantity], which is positive, so the
    key cannot be missing; the in-place update is [alter]. *)
Definition sell_shares (get_share_price : oracle) (now : Z)
    (symbol : string) (quantity : Z) : method Account unit :=
  raise_if (bool_decide (quantity <= 0)%Z) ValueError InvalidQuantity ;;
  h ← read holdings ;
  let current_holding := get0 h symbol in
  raise_if (bool_decide (current_holding < quantity)%Z)
    InsufficientSharesError InsufficientShares ;;
  price ← lookup_price get_share_price symbol ;
  let proceeds := price * of_int quantity in
  assign (fun self => set_balance (balance self + proceeds) self) ;;
  assign (fun self =>
    set_holdings (alter (fun held => (held - quantity)%Z) symbol (holdings self))
      self) ;;
  h ← read holdings ;
  (if bool_decide (h !! symbol = Some 0%Z)
   then assign (fun self => set_holdings (delete symbol (holdings self)) self)
   else ret tt) ;;
  _record_transaction now "SELL" proceeds (Some symbol) (Some quantity)
    (Some price).

Definition get_cash_balance : method Account Qc := read balance.

(** The dictionary [calculate_portfolio_value] returns. *)
Record portfolio_value : Type := {
  cash_value : Qc;
  stock_value : Qc;
  total_value : Qc
}.

(** The loop over [self.holdings.items()], with its [if quantity > 0]. *)
Fixpoint sum_items (get_share_price : oracle) (items : list (string * Z))
    (stock_value : Qc) : method Account Qc :=
  match items with
  | [] => ret stock_value
  | (symbol, quantity) :: rest =>
      if bool_decide (0 < quantity)%Z
      then
        price ← lookup_price get_share_price symbol ;
        sum_items get_share_price rest (stock_value + price * of_int quantity)
      else sum_items get_share_price rest stock_value
  end.

Definition calculate_portfolio_value (get_share_price : oracle)
  : method Account portfolio_value :=
  h ← read holdings ;
  stock_value ← sum_items get_share_price (map_to_list h) 0 ;
  b ← read balance ;
  ret {| cash_value := b; stock_value := stock_value;
         total_value := b + stock_value |}.

Inductive call : Type :=
  | Deposit (amount : Qc)
  | Withdraw (amount : Qc)
  | Buy (symbol : string) (quantity : Z)
  | Sell (symbol : string) (quantity : Z).

Definition invoke (get_share_price : oracle) (now : Z) (c : call)
  : method Account unit :=
  match c with
  | Deposit amount => deposit now amount
  | Withdraw amount => withdraw now amount
  | Buy symbol quantity => buy_shares get_share_price now symbol quantity
  | Sell symbol quantity => sell_shares get_share_price now symbol quantity
  end.

Definition step (get_share_price : oracle) (self : Account) (c : Z * call)
  : Account :=
  snd (invoke get_share_price (fst c) (snd c) self).

Definition run (get_share_price : oracle) (cs : list (Z * call))
    (self : Account) : Account :=
  fold_left (step get_share_price) cs self.

(** [{s: q for s, q in self.holdings.items() if q > 0}] *)
Definition get_holdings : method Account (gmap string Z) :=
  read (fun self =>
    filter (fun item : string * Z => (0 < item.2)%Z) (holdings self)).

(** The dictionary [calculate_profit_loss] returns. *)
Record profit_loss : Type := {
  initial_deposit : Qc;
  current_total_value : Qc;
  profit_loss_amount : Qc;
  profit_loss_percent : Qc
}.

Definition calculate_profit_loss (get_share_price : oracle)
  : method Account profit_loss :=
  value ← calculate_portfolio_value get_share_price ;
  let current_total_value := total_value value in
  baseline ← read initial_deposit_total ;
  let pl_amount := current_total_value - baseline in
  let pl_percent :=
    if bool_decide (0 < baseline)
    then pl_amount / baseline * dec 100 1
    else 0 in
  ret {| initial_deposit := baseline;
         current_total_value := current_total_value;
         profit_loss_amount := pl_amount;
         profit_loss_percent := pl_percent |}.

End Accounts.

(** ** test_accounts.py (crew) *)

(** The valuation loop of the [Account] class that
    crew/engineering_team/output/test_accounts.py defines and runs its tests
    against: the price call sits in [try ... except ValueError: continue]. *)
Module TestAccounts.

Fixpoint sum_items (get_share_price : oracle) (items : list (string * Z))
    (total_value : Qc) : Qc :=
  match items with
  | [] => total_value
  | (symbol, quantity) :: rest =>
      match get_share_price symbol with
      | Some price =>
          sum_items get_share_price rest (total_value + price * of_int quantity)
      | None => sum_items get_share_price rest total_value
      end
  end.

Definition calculate_current_holdings_value (get_share_price : oracle)
    (_holdings : gmap string Z) : Qc :=
  sum_items get_share_price (map_to_list _holdings) 0.

End TestAccounts.

(** ** Invariants of the data model *)

(** A price function whose prices are not negative. *)
Definition prices_nonneg (get_share_price : oracle) : Prop :=
  forall symbol price, get_share_price symbol = Some price -> 0 <= price.

(** Every held quantity is strictly positive. *)
Definition holdings_positive (h : gmap string Z) : Prop :=
  forall symbol held, h !! symbol = Some held -> (0 < held)%Z.

(** The data-model invariant: cash is not negative and every held quantity
    is strictly positive. *)
Definition working_invariant (self : AccountsWorking.Account) : Prop :=
  0 <= AccountsWorking.cash_balance self
  /\ holdings_positive (AccountsWorking.holdings self).

Definition accounts_invariant (self : Accounts.Account) : Prop :=
  0 <= Accounts.balance self
  /\ holdings_positive (Accounts.holdings self).

(** ** Sums over the transaction list and over the holdings *)

(** The sum of the [cash_impact] fields of a history of accounts_working.py. *)
Definition sum_cash_impact (history : list AccountsWorking.transaction) : Qc :=
  foldr (fun t acc => AccountsWorking.cash_impact t + acc) 0 history.

(** The sum of the [amount] fields of a transaction list of accounts.py. *)
Definition sum_amount (transactions : list Accounts.transaction) : Qc :=
  foldr (fun t acc => Accounts.amount t + acc) 0 transactions.

(** The same sum over the records whose type is "DEPOSIT". *)
Definition sum_deposits (transactions : list Accounts.transaction) : Qc :=
  foldr (fun t acc =>
           (if bool_decide (Accounts.type t = "DEPOSIT")
            then Accounts.amount t else 0) + acc)
        0 transactions.

(** The sum of what each (symbol, quantity) item is worth. *)
Definition value_with (worth : string * Z -> Qc) (items : list (string * Z))
  : Qc :=
  foldr (fun item acc => worth item + acc) 0 items.

(** What an item is worth at a price function: price times quantity, and
    nothing where there is no price. *)
Definition worth_at (get_share_price : oracle) (item : string * Z) : Qc :=
  match get_share_price item.1 with
  | Some price => price * of_int item.2
  | None => 0
  end.

(** The same, counting only quantities above zero. *)
Definition positive_worth_at (get_share_price : oracle) (item : string * Z)
  : Qc :=
  if bool_decide (0 < item.2)%Z then worth_at get_share_price item else 0.

(** Every held symbol has a price. *)
Definition holdings_priced (get_share_price : oracle) (h : gmap string Z)
  : Prop :=
  forall symbol held, h !! symbol = Some held -> is_Some (get_share_price symbol).

(** The sum of the [cash_impact] fields of the deposit and withdrawal
    records of a history of accounts_working.py (the records of trades are
    left out). *)
Definition sum_cash_flows (history : list AccountsWorking.transaction) : Qc :=
  foldr (fun t acc =>
           (if bool_decide (AccountsWorking.type t = "Deposit")
               || bool_decide (AccountsWorking.type t = "Withdrawal")
            then AccountsWorking.cash_impact t else 0) + acc)
        0 history.

(** The sum of the [amount] fields of the records of type "WITHDRAW" of a
    transaction list of accounts.py. *)
Definition sum_withdrawals (transactions : list Accounts.transaction) : Qc :=
  foldr (fun t acc =>
           (if bool_decide (Accounts.type t = "WITHDRAW")
            then Accounts.amount t else 0) + acc)
        0 transactions.

(** The books balance: cash plus the holdings at the quoted prices is the
    baseline plus the cash moved in and out. *)
Definition working_books (get_share_price : oracle)
    (self : AccountsWorking.Account) : Prop :=
  holdings_priced get_share_price (AccountsWorking.holdings self)
  /\ AccountsWorking.cash_balance self
     + value_with (worth_at get_share_price)
         (map_to_list (AccountsWorking.holdings self))
     = AccountsWorking.initial_deposit self
       + sum_cash_flows (AccountsWorking.transaction_history self).

Definition accounts_books (get_share_price : oracle)
    (self : Accounts.Account) : Prop :=
  holdings_positive (Accounts.holdings self)
  /\ holdings_priced get_share_price (Accounts.holdings self)
  /\ Accounts.balance self
     + value_with (positive_worth_at get_share_price)
         (map_to_list (Accounts.holdings self))
     = Accounts.initial_deposit_total self
       + sum_withdrawals (Accounts.transactions self).

(** ** Shares moved according to the transaction list *)

(** The shares of [key] a record of accounts_working.py moves: bought
    shares in, sold shares out, nothing for the cash records. *)
Definition working_shares_moved (key : string)
    (t : AccountsWorking.transaction) : Z :=
  if bool_decide (AccountsWorking.symbol t = key) then
    if String.eqb (AccountsWorking.type t) "Buy"
    then AccountsWorking.quantity t
    else if String.eqb (AccountsWorking.type t) "Sell"
         then - AccountsWorking.quantity t
         else 0
  else 0.

Definition working_net_shares (key : string)
    (history : list AccountsWorking.transaction) : Z :=
  fold_right (fun t acc => (working_shares_moved key t + acc)%Z) 0%Z history.

(** The same for a record of accounts.py, whose symbol and quantity are
    [None] on cash records. *)
Definition accounts_shares_moved (key : string) (t : Accounts.transaction)
  : Z :=
  match Accounts.symbol t, Accounts.quantity t with
  | Some symbol, Some quantity =>
      if bool_decide (symbol = key) then
        if String.eqb (Accounts.type t) "BUY" then quantity
        else if String.eqb (Accounts.type t) "SELL" then - quantity
             else 0
      else 0
  | _, _ => 0%Z
  end.

Definition accounts_net_shares (key : string)
    (transactions : list Accounts.transaction) : Z :=
  fold_right (fun t acc => (accounts_shares_moved key t + acc)%Z) 0%Z
    transactions.

(** Every symbol accounts_working.py stores, as a key of the holdings or in
    a record, is in upper case. *)
Definition symbols_upper_case (self : AccountsWorking.Account) : Prop :=
  map_Forall (fun key (_ : Z) => upper key = key)
    (AccountsWorking.holdings self)
  /\ Forall (fun t => upper (AccountsWorking.symbol t) = AccountsWorking.symbol t)
       (AccountsWorking.transaction_history self).

(** * Properties *)

(** Unfolds a method body down to its guards. *)
Ltac method_unfold :=
  unfold mbind, method_bind, mret, method_ret, bind, raise_if, lookup_price,
    read, assign, raise, ret in *.

(** Splits on the guards of an unfolded method body. *)
Ltac method_cases :=
  repeat (simpl in *;
          match goal with
          | |- context [bool_decide ?P] => destruct (bool_decide_reflect P)
          | |- context [match ?o with Some _ => _ | None => _ end] =>
              destruct o eqn:?
          | |- context [if ?b then _ else _] => destruct b eqn:?
          end).

Section AllOrNothing.
Variable get_share_price : oracle.

Lemma working_invoke_all_or_nothing now c self :
  match AccountsWorking.invoke get_share_price now c self with
  | (Returned _, self') =>
      exists t, AccountsWorking.transaction_history self'
                = AccountsWorking.transaction_history self ++ [t]
  | (Raised _ _, self') => self' = self
  end.
Proof.
  destruct c; simpl;
    unfold AccountsWorking.deposit, AccountsWorking.withdraw,
      AccountsWorking.buy_shares, AccountsWorking.sell_shares,
      AccountsWorking.append;
    method_unfold; method_cases; eauto.
Qed.

Lemma accounts_invoke_all_or_nothing now c self :
  match Accounts.invoke get_share_price now c self with
  | (Returned _, self') =>
      exists t, Accounts.transactions self'
                = Accounts.transactions self ++ [t]
  | (Raised _ _, self') => self' = self
  end.
Proof.
  destruct c; simpl;
    unfold Accounts.deposit, Accounts.withdraw,
      Accounts.buy_shares, Accounts.sell_shares,
      Accounts._record_transaction;
    method_unfold; method_cases; eauto.
Qed.
End AllOrNothing.

(** C1. Every mutating call (deposit, withdraw, buy, sell), on any account
    and with any price function: a call that returns has appended exactly
    one record to the transaction list; a call that raises leaves the whole
    object (cash, holdings, transactions, deposit baseline) as it was. *)
Theorem mutating_call_all_or_nothing (get_share_price : oracle) (now : Z) :
  (forall c self,
     match AccountsWorking.invoke get_share_price now c self with
     | (Returned _, self') =>
         exists t, AccountsWorking.transaction_history self'
                   = AccountsWorking.transaction_history self ++ [t]
     | (Raised _ _, self') => self' = self
     end)
  /\
  (forall c self,
     match Accounts.invoke get_share_price now c self with
     | (Returned _, self') =>
         exists t, Accounts.transactions self'
                   = Accounts.transactions self ++ [t]
     | (Raised _ _, self') => self' = self
     end).
Proof.
  split; intros c self.
  - apply working_invoke_all_or_nothing.
  - apply accounts_invoke_all_or_nothing.
Qed.

(** ** Deposits *)

Lemma working_deposit_positive now amount self :
  0 < amount ->
  AccountsWorking.deposit now amount self
  = (Returned tt,
     {| AccountsWorking.account_holder_name :=
          AccountsWorking.account_holder_name self;
        AccountsWorking.cash_balance :=
          AccountsWorking.cash_balance self + amount;
        AccountsWorking.initial_deposit := AccountsWorking.initial_deposit self;
        AccountsWorking.holdings := AccountsWorking.holdings self;
        AccountsWorking.transaction_history :=
          AccountsWorking.transaction_history self
          ++ [ {| AccountsWorking.timestamp := now;
                  AccountsWorking.type := "Deposit";
                  AccountsWorking.symbol := "CASH";
                  AccountsWorking.quantity := 1;
                  AccountsWorking.price_per_share := amount;
                  AccountsWorking.cash_impact := amount;
                  AccountsWorking.balance_after :=
                    AccountsWorking.cash_balance self + amount |} ] |}).
Proof.
  intros Hpos. unfold AccountsWorking.deposit, AccountsWorking.append.
  method_unfold. rewrite bool_decide_eq_false_2; [reflexivity |].
  by apply Qclt_not_le.
Qed.

Lemma accounts_deposit_positive now amount self :
  0 < amount ->
  Accounts.deposit now amount self
  = (Returned tt,
     {| Accounts.account_id := Accounts.account_id self;
        Accounts.balance := Accounts.balance self + amount;
        Accounts.holdings := Accounts.holdings self;
        Accounts.transactions :=
          Accounts.transactions self
          ++ [ {| Accounts.timestamp := now;
                  Accounts.type := "DEPOSIT";
                  Accounts.symbol := None;
                  Accounts.quantity := None;
                  Accounts.price := None;
                  Accounts.amount := amount |} ];
        Accounts.initial_deposit_total :=
          Accounts.initial_deposit_total self + amount |}).
Proof.
  intros Hpos. unfold Accounts.deposit, Accounts._record_transaction.
  method_unfold. rewrite bool_decide_eq_false_2; [reflexivity |].
  by apply Qclt_not_le.
Qed.

(** C2, as stated, fails on accounts_working.py: a deposit of 5 into an
    account opened with 10 returns, and the deposit baseline is still 10. *)
Lemma working_deposit_leaves_baseline :
  let self := AccountsWorking.__init__ "Demo Trader" (dec 10 1) in
  let after := AccountsWorking.deposit 0 (dec 5 1) self in
  0 < dec 5 1
  /\ fst after = Returned tt
  /\ AccountsWorking.initial_deposit (snd after) = dec 10 1
  /\ AccountsWorking.initial_deposit (snd after)
     <> AccountsWorking.initial_deposit self + dec 5 1.
Proof.
  repeat split.
  intros H. apply (f_equal this) in H. vm_compute in H. discriminate H.
Qed.

(** C2 (amended). For every account and every amount d > 0, deposit(d)
    returns, the cash balance is its previous value plus d, nothing else
    but the transaction list changes, and exactly one deposit record for d
    is appended.  In accounts.py initial_deposit_total also grows by d; in
    accounts_working.py the baseline initial_deposit stays at the amount the
    account was opened with. *)
Theorem deposit_credits_cash_and_records (now : Z) (d : Qc) (Hd : 0 < d) :
  (forall self,
     AccountsWorking.deposit now d self
     = (Returned tt,
        {| AccountsWorking.account_holder_name :=
             AccountsWorking.account_holder_name self;
           AccountsWorking.cash_balance :=
             AccountsWorking.cash_balance self + d;
           AccountsWorking.initial_deposit :=
             AccountsWorking.initial_deposit self;
           AccountsWorking.holdings := AccountsWorking.holdings self;
           AccountsWorking.transaction_history :=
             AccountsWorking.transaction_history self
             ++ [ {| AccountsWorking.timestamp := now;
                     AccountsWorking.type := "Deposit";
                     AccountsWorking.symbol := "CASH";
                     AccountsWorking.quantity := 1;
                     AccountsWorking.price_per_share := d;
                     AccountsWorking.cash_impact := d;
                     AccountsWorking.balance_after :=
                       AccountsWorking.cash_balance self + d |} ] |}))
  /\
  (forall self,
     Accounts.deposit now d self
     = (Returned tt,
        {| Accounts.account_id := Accounts.account_id self;
           Accounts.balance := Accounts.balance self + d;
           Accounts.holdings := Accounts.holdings self;
           Accounts.transactions :=
             Accounts.transactions self
             ++ [ {| Accounts.timestamp := now;
                     Accounts.type := "DEPOSIT";
                     Accounts.symbol := None;
                     Accounts.quantity := None;
                     Accounts.price := None;
                     Accounts.amount := d |} ];
           Accounts.initial_deposit_total :=
             Accounts.initial_deposit_total self + d |})).
Proof.
  split; intros self.
  - by apply working_deposit_positive.
  - by apply accounts_deposit_positive.
Qed.

Lemma deposit_credits_cash_and_records_witness :
  0 < dec 5 1
  /\ Accounts.initial_deposit_total
       (snd (Accounts.deposit 7 (dec 5 1) (Accounts.__init__ "SimulatedUser1")))
     = 0 + dec 5 1.
Proof.
  assert (Hd : 0 < dec 5 1) by reflexivity.
  split; [exact Hd |].
  rewrite (proj2 (deposit_credits_cash_and_records 7 (dec 5 1) Hd)). reflexivity.
Defined.

(** ** Symbols and prices *)

Lemma upper_ascii_idem c : upper_ascii (upper_ascii c) = upper_ascii c.
Proof.
  destruct c as [[] [] [] [] [] [] [] []]; reflexivity.
Qed.

Lemma upper_idem s : upper (upper s) = upper s.
Proof.
  induction s as [| c r IH]; simpl; [reflexivity |].
  by rewrite upper_ascii_idem, IH.
Qed.

(** The price function of accounts_working.py answers for the upper-cased
    symbol. *)
Lemma working_get_share_price_upper s :
  AccountsWorking.get_share_price (upper s) = AccountsWorking.get_share_price s.
Proof. unfold AccountsWorking.get_share_price. by rewrite upper_idem. Qed.

(** The price function of accounts.py is total, and 100.00 off its list. *)
Lemma accounts_get_share_price_total s :
  exists price, Accounts.get_share_price s = Some price /\ 0 < price.
Proof.
  unfold Accounts.get_share_price.
  repeat case_bool_decide; eexists; (split; [reflexivity | reflexivity]).
Qed.

Lemma accounts_get_share_price_default s :
  Accounts.listed s = false -> Accounts.get_share_price s = Some (dec 100 1).
Proof.
  unfold Accounts.listed, Accounts.get_share_price.
  repeat case_bool_decide; simpl; congruence.
Qed.

Section UnknownSymbol.
Variable get_share_price : oracle.

Lemma working_buy_unknown now s q self :
  (0 < q)%Z ->
  get_share_price (upper s) = None ->
  AccountsWorking.buy_shares get_share_price now s q self
  = (Raised ValueError UnknownSymbol, self).
Proof.
  intros Hq Hnone. unfold AccountsWorking.buy_shares. method_unfold.
  rewrite Hnone, bool_decide_eq_false_2 by lia. reflexivity.
Qed.

Lemma accounts_buy_unknown now s q self :
  (0 < q)%Z ->
  get_share_price s = None ->
  Accounts.buy_shares get_share_price now s q self
  = (Raised ValueError UnknownSymbol, self).
Proof.
  intros Hq Hnone. unfold Accounts.buy_shares. method_unfold.
  rewrite Hnone, bool_decide_eq_false_2 by lia. reflexivity.
Qed.
End UnknownSymbol.

Lemma accounts_buy_never_unknown now s q self c k :
  fst (Accounts.buy_shares Accounts.get_share_price now s q self) = Raised c k ->
  k <> UnknownSymbol.
Proof.
  destruct (accounts_get_share_price_total s) as (p & Hp & _).
  unfold Accounts.buy_shares, Accounts._record_transaction. method_unfold.
  rewrite Hp. method_cases; simpl; congruence.
Qed.

(** C3, as stated, fails on accounts.py: "XYZ" is not one of the symbols
    its price function lists, yet buying one share of it with 1000 in cash
    returns, takes 100 from the balance and creates the holding. *)
Lemma accounts_buy_unlisted_symbol_succeeds :
  let self := snd (Accounts.deposit 0 (dec 1000 1) (Accounts.__init__ "SimulatedUser1")) in
  let after := Accounts.buy_shares Accounts.get_share_price 1 "XYZ" 1 self in
  Accounts.listed "XYZ" = false
  /\ fst after = Returned tt
  /\ Accounts.balance (snd after) = dec 900 1
  /\ Accounts.holdings (snd after) !! "XYZ" = Some 1%Z
  /\ snd after <> self.
Proof.
  split; [reflexivity |]. split; [reflexivity |].
  split; [by apply Qc_is_canon |]. split; [reflexivity |].
  intros H. apply (f_equal (fun a => Accounts.holdings a !! "XYZ")) in H.
  vm_compute in H. discriminate H.
Qed.

(** C3 (amended). For every account and every quantity q > 0: in
    accounts_working.py, buy(symbol, q) for a symbol its price function does
    not know raises (ValueError, kind UnknownSymbol) and leaves the account
    unchanged.  In accounts.py the price function never fails (a symbol it
    does not list is priced at 100.00), so buy never raises UnknownSymbol
    there; with a substituted price function that does fail on the symbol,
    buy raises UnknownSymbol and leaves the account unchanged. *)
Theorem buy_unknown_symbol (now : Z) (symbol : string) (q : Z) (Hq : (0 < q)%Z) :
  (forall self,
     AccountsWorking.get_share_price symbol = None ->
     AccountsWorking.buy_shares AccountsWorking.get_share_price now symbol q self
     = (Raised ValueError UnknownSymbol, self))
  /\
  (Accounts.listed symbol = false ->
   Accounts.get_share_price symbol = Some (dec 100 1))
  /\
  (forall self c k,
     fst (Accounts.buy_shares Accounts.get_share_price now symbol q self)
     = Raised c k ->
     k <> UnknownSymbol)
  /\
  (forall (patched : oracle) self,
     patched symbol = None ->
     Accounts.buy_shares patched now symbol q self
     = (Raised ValueError UnknownSymbol, self)).
Proof.
  repeat split.
  - intros self Hnone. apply working_buy_unknown; [done |].
    by rewrite working_get_share_price_upper.
  - apply accounts_get_share_price_default.
  - intros self c k. apply accounts_buy_never_unknown.
  - intros patched self Hnone. by apply accounts_buy_unknown.
Qed.

Lemma buy_unknown_symbol_witness :
  (0 < 3)%Z
  /\ AccountsWorking.buy_shares AccountsWorking.get_share_price 5 "msft" 3
       (AccountsWorking.__init__ "Demo Trader" (dec 10000 1))
     = (Raised ValueError UnknownSymbol,
        AccountsWorking.__init__ "Demo Trader" (dec 10000 1)).
Proof.
  assert (Hq : (0 < 3)%Z) by lia.
  split; [exact Hq |].
  apply (proj1 (buy_unknown_symbol 5 "msft" 3 Hq)). reflexivity.
Defined.

(** ** Selling: share check, then price *)

Lemma lacks_shares_get0 h s q :
  (0 < q)%Z ->
  AccountsWorking.lacks_shares h s q = true <-> (get0 h s < q)%Z.
Proof.
  intros Hq. unfold AccountsWorking.lacks_shares, get0.
  destruct (h !! s) as [held |]; simpl.
  - by rewrite bool_decide_eq_true.
  - split; [lia | done].
Qed.

Section SellOrder.
Variable get_share_price : oracle.

Lemma working_sell_insufficient now s q self :
  (0 < q)%Z ->
  (get0 (AccountsWorking.holdings self) (upper s) < q)%Z ->
  AccountsWorking.sell_shares get_share_price now s q self
  = (Raised TradingError InsufficientShares, self).
Proof.
  intros Hq Hheld. apply (lacks_shares_get0 _ _ _ Hq) in Hheld.
  unfold AccountsWorking.sell_shares. method_unfold.
  rewrite bool_decide_eq_false_2 by lia. simpl. by rewrite Hheld.
Qed.

Lemma working_sell_unknown now s q self :
  (0 < q)%Z ->
  (q <= get0 (AccountsWorking.holdings self) (upper s))%Z ->
  get_share_price (upper s) = None ->
  AccountsWorking.sell_shares get_share_price now s q self
  = (Raised ValueError UnknownSymbol, self).
Proof.
  intros Hq Hheld Hnone.
  assert (Hlacks : AccountsWorking.lacks_shares
                     (AccountsWorking.holdings self) (upper s) q = false).
  { apply not_true_is_false. rewrite lacks_shares_get0 by done. lia. }
  unfold AccountsWorking.sell_shares. method_unfold.
  rewrite bool_decide_eq_false_2 by lia. simpl. by rewrite Hlacks, Hnone.
Qed.

Lemma working_sell_unknown_inv now s q self c :
  fst (AccountsWorking.sell_shares get_share_price now s q self)
  = Raised c UnknownSymbol ->
  (0 < q)%Z
  /\ (q <= get0 (AccountsWorking.holdings self) (upper s))%Z
  /\ get_share_price (upper s) = None.
Proof.
  destruct (decide (0 < q)%Z) as [Hq | Hq].
  - destruct (decide (get0 (AccountsWorking.holdings self) (upper s) < q)%Z)
      as [Hlt | Hge].
    + rewrite working_sell_insufficient by done. simpl. congruence.
    + intros Hraise. repeat split; [done | lia |].
      revert Hraise.
      unfold AccountsWorking.sell_shares, AccountsWorking.append.
      method_unfold. method_cases; simpl; congruence.
  - unfold AccountsWorking.sell_shares. method_unfold.
    rewrite bool_decide_eq_true_2 by lia. simpl. congruence.
Qed.

Lemma accounts_sell_insufficient now s q self :
  (0 < q)%Z ->
  (get0 (Accounts.holdings self) s < q)%Z ->
  Accounts.sell_shares get_share_price now s q self
  = (Raised InsufficientSharesError InsufficientShares, self).
Proof.
  intros Hq Hheld. unfold Accounts.sell_shares. method_unfold.
  rewrite bool_decide_eq_false_2 by lia. simpl.
  by rewrite bool_decide_eq_true_2.
Qed.

Lemma accounts_sell_unknown now s q self :
  (0 < q)%Z ->
  (q <= get0 (Accounts.holdings self) s)%Z ->
  get_share_price s = None ->
  Accounts.sell_shares get_share_price now s q self
  = (Raised ValueError UnknownSymbol, self).
Proof.
  intros Hq Hheld Hnone. unfold Accounts.sell_shares. method_unfold.
  rewrite bool_decide_eq_false_2 by lia. simpl.
  rewrite bool_decide_eq_false_2 by lia. by rewrite Hnone.
Qed.

Lemma accounts_sell_unknown_inv now s q self c :
  fst (Accounts.sell_shares get_share_price now s q self)
  = Raised c UnknownSymbol ->
  (0 < q)%Z
  /\ (q <= get0 (Accounts.holdings self) s)%Z
  /\ get_share_price s = None.
Proof.
  destruct (decide (0 < q)%Z) as [Hq | Hq].
  - destruct (decide (get0 (Accounts.holdings self) s < q)%Z) as [Hlt | Hge].
    + rewrite accounts_sell_insufficient by done. simpl. congruence.
    + intros Hraise. repeat split; [done | lia |].
      revert Hraise.
      unfold Accounts.sell_shares, Accounts._record_transaction.
      method_unfold. method_cases; simpl; congruence.
  - unfold Accounts.sell_shares. method_unfold.
    rewrite bool_decide_eq_true_2 by lia. simpl. congruence.
Qed.
End SellOrder.

(** C6. In sell(symbol, q) with q > 0, the share check comes before the
    price lookup.  If q exceeds the held quantity the call raises
    InsufficientShares whatever the price function is (it is not asked),
    and the account is unchanged; the call raises UnknownSymbol only if the
    share check passed and the price function fails on the symbol, and it
    does raise it then.  Both ledgers; accounts_working.py looks at the
    upper-cased symbol. *)
Theorem sell_checks_shares_before_price (now : Z) (symbol : string) (q : Z)
    (Hq : (0 < q)%Z) :
  (forall (get_share_price : oracle) self,
     (get0 (AccountsWorking.holdings self) (upper symbol) < q)%Z ->
     AccountsWorking.sell_shares get_share_price now symbol q self
     = (Raised TradingError InsufficientShares, self))
  /\
  (forall (get_share_price : oracle) self c,
     fst (AccountsWorking.sell_shares get_share_price now symbol q self)
     = Raised c UnknownSymbol ->
     (q <= get0 (AccountsWorking.holdings self) (upper symbol))%Z
     /\ get_share_price (upper symbol) = None)
  /\
  (forall (get_share_price : oracle) self,
     (q <= get0 (AccountsWorking.holdings self) (upper symbol))%Z ->
     get_share_price (upper symbol) = None ->
     AccountsWorking.sell_shares get_share_price now symbol q self
     = (Raised ValueError UnknownSymbol, self))
  /\
  (forall (get_share_price : oracle) self,
     (get0 (Accounts.holdings self) symbol < q)%Z ->
     Accounts.sell_shares get_share_price now symbol q self
     = (Raised InsufficientSharesError InsufficientShares, self))
  /\
  (forall (get_share_price : oracle) self c,
     fst (Accounts.sell_shares get_share_price now symbol q self)
     = Raised c UnknownSymbol ->
     (q <= get0 (Accounts.holdings self) symbol)%Z
     /\ get_share_price symbol = None)
  /\
  (forall (get_share_price : oracle) self,
     (q <= get0 (Accounts.holdings self) symbol)%Z ->
     get_share_price symbol = None ->
     Accounts.sell_shares get_share_price now symbol q self
     = (Raised ValueError UnknownSymbol, self)).
Proof.
  repeat apply conj.
  - intros P self Hheld. by apply working_sell_insufficient.
  - intros P self c Hraise.
    by destruct (working_sell_unknown_inv P now symbol q self c Hraise)
      as (_ & ? & ?).
  - intros P self Hheld Hnone. by apply working_sell_unknown.
  - intros P self Hheld. by apply accounts_sell_insufficient.
  - intros P self c Hraise.
    by destruct (accounts_sell_unknown_inv P now symbol q self c Hraise)
      as (_ & ? & ?).
  - intros P self Hheld Hnone. by apply accounts_sell_unknown.
Qed.

Lemma sell_checks_shares_before_price_witness :
  (0 < 5)%Z
  /\ AccountsWorking.sell_shares AccountsWorking.get_share_price 9 "fake" 5
       (AccountsWorking.set_holdings {[ "FAKE" := 10%Z ]}
          (AccountsWorking.__init__ "Jane Doe" (dec 1000 1)))
     = (Raised ValueError UnknownSymbol,
        AccountsWorking.set_holdings {[ "FAKE" := 10%Z ]}
          (AccountsWorking.__init__ "Jane Doe" (dec 1000 1))).
Proof.
  assert (Hq : (0 < 5)%Z) by lia.
  split; [exact Hq |].
  apply (proj1 (proj2 (proj2 (sell_checks_shares_before_price 9 "fake" 5 Hq)))).
  - vm_compute. discriminate.
  - reflexivity.
Defined.

(** ** Symbol case *)

Section SymbolCase.
Variable get_share_price : oracle.

Lemma working_buy_upper now s q self :
  AccountsWorking.buy_shares get_share_price now (upper s) q self
  = AccountsWorking.buy_shares get_share_price now s q self.
Proof. unfold AccountsWorking.buy_shares. by rewrite upper_idem. Qed.

Lemma working_sell_upper now s q self :
  AccountsWorking.sell_shares get_share_price now (upper s) q self
  = AccountsWorking.sell_shares get_share_price now s q self.
Proof. unfold AccountsWorking.sell_shares. by rewrite upper_idem. Qed.

(** accounts.py: a call about [s] touches no other key. *)
Lemma accounts_buy_other_key now s q self s' :
  s' <> s ->
  Accounts.holdings (snd (Accounts.buy_shares get_share_price now s q self))
    !! s' = Accounts.holdings self !! s'.
Proof.
  intros Hne. unfold Accounts.buy_shares, Accounts._record_transaction.
  method_unfold. method_cases; simpl; try reflexivity.
  by rewrite lookup_insert_ne.
Qed.

Lemma accounts_sell_other_key now s q self s' :
  s' <> s ->
  Accounts.holdings (snd (Accounts.sell_shares get_share_price now s q self))
    !! s' = Accounts.holdings self !! s'.
Proof.
  intros Hne. unfold Accounts.sell_shares, Accounts._record_transaction.
  method_unfold. method_cases; simpl; try reflexivity.
  - by rewrite lookup_delete_ne, lookup_alter_ne.
  - by rewrite lookup_alter_ne.
Qed.
End SymbolCase.

(** C7, as stated, fails on accounts.py: buying one share of "aapl" and
    buying one share of "AAPL" from the same account end in different
    states.  "aapl" is priced at the default 100.00 and becomes a holding
    of its own; the entry "AAPL" is not touched. *)
Lemma accounts_buy_is_case_sensitive :
  let self := snd (Accounts.deposit 0 (dec 1000 1) (Accounts.__init__ "SimulatedUser1")) in
  let lower := snd (Accounts.buy_shares Accounts.get_share_price 1 "aapl" 1 self) in
  let upper_ := snd (Accounts.buy_shares Accounts.get_share_price 1 (upper "aapl") 1 self) in
  upper "aapl" = "AAPL"
  /\ Accounts.holdings lower !! "aapl" = Some 1%Z
  /\ Accounts.holdings lower !! "AAPL" = None
  /\ Accounts.holdings upper_ !! "AAPL" = Some 1%Z
  /\ Accounts.balance lower = dec 900 1
  /\ Accounts.balance upper_ = dec 8295 10
  /\ lower <> upper_.
Proof.
  repeat apply conj; try reflexivity; try (by apply Qc_is_canon).
  intros H. apply (f_equal (fun a => Accounts.holdings a !! "AAPL")) in H.
  vm_compute in H. discriminate H.
Qed.

(** C7 (amended). In accounts_working.py, for every account, quantity and
    symbol string s, buy(s, q) and sell(s, q) are the same call as buy and
    sell with the upper-cased s: both act on the holdings entry of the
    upper-cased symbol.  accounts.py does not normalise: buy(s, q) and
    sell(s, q) use s as written and leave every other key, the upper-cased
    form included when it differs, as it was. *)
Theorem symbol_case (get_share_price : oracle) (now : Z) (s : string) (q : Z) :
  (forall self,
     AccountsWorking.buy_shares get_share_price now s q self
     = AccountsWorking.buy_shares get_share_price now (upper s) q self)
  /\
  (forall self,
     AccountsWorking.sell_shares get_share_price now s q self
     = AccountsWorking.sell_shares get_share_price now (upper s) q self)
  /\
  (forall self s',
     s' <> s ->
     Accounts.holdings (snd (Accounts.buy_shares get_share_price now s q self))
       !! s' = Accounts.holdings self !! s')
  /\
  (forall self s',
     s' <> s ->
     Accounts.holdings (snd (Accounts.sell_shares get_share_price now s q self))
       !! s' = Accounts.holdings self !! s').
Proof.
  repeat apply conj.
  - intros self. symmetry. apply working_buy_upper.
  - intros self. symmetry. apply working_sell_upper.
  - intros self s'. apply accounts_buy_other_key.
  - intros self s'. apply accounts_sell_other_key.
Qed.

Lemma symbol_case_witness :
  "AAPL" <> "aapl"
  /\ Accounts.holdings
       (snd (Accounts.buy_shares Accounts.get_share_price 3 "aapl" 2
               (snd (Accounts.deposit 0 (dec 1000 1)
                       (Accounts.__init__ "SimulatedUser1")))))
       !! "AAPL"
     = Accounts.holdings
         (snd (Accounts.deposit 0 (dec 1000 1)
                 (Accounts.__init__ "SimulatedUser1")))
         !! "AAPL".
Proof.
  assert (Hne : "AAPL" <> "aapl") by discriminate.
  split; [exact Hne |].
  apply (proj1 (proj2 (proj2
           (symbol_case Accounts.get_share_price 3 "aapl" 2)))).
  exact Hne.
Defined.

(** ** Trades that go through *)

Section Trades.
Variable get_share_price : oracle.

Lemma working_buy_returns now s q price self :
  (0 < q)%Z ->
  get_share_price (upper s) = Some price ->
  price * of_int q <= AccountsWorking.cash_balance self ->
  AccountsWorking.buy_shares get_share_price now s q self
  = (Returned tt,
     {| AccountsWorking.account_holder_name :=
          AccountsWorking.account_holder_name self;
        AccountsWorking.cash_balance :=
          AccountsWorking.cash_balance self - price * of_int q;
        AccountsWorking.initial_deposit :=
          AccountsWorking.initial_deposit self;
        AccountsWorking.holdings :=
          <[upper s := (get0 (AccountsWorking.holdings self) (upper s) + q)%Z]>
            (AccountsWorking.holdings self);
        AccountsWorking.transaction_history :=
          AccountsWorking.transaction_history self
          ++ [ {| AccountsWorking.timestamp := now;
                  AccountsWorking.type := "Buy";
                  AccountsWorking.symbol := upper s;
                  AccountsWorking.quantity := q;
                  AccountsWorking.price_per_share := price;
                  AccountsWorking.cash_impact := - (price * of_int q);
                  AccountsWorking.balance_after :=
                    AccountsWorking.cash_balance self - price * of_int q |} ]
     |}).
Proof.
  intros Hq Hprice Hcash.
  unfold AccountsWorking.buy_shares, AccountsWorking.append. method_unfold.
  rewrite Hprice, !bool_decide_eq_false_2 by (try lia; by apply Qcle_not_lt).
  reflexivity.
Qed.

Lemma working_sell_returns now s q price held self :
  (0 < q)%Z ->
  AccountsWorking.holdings self !! upper s = Some held ->
  (q <= held)%Z ->
  get_share_price (upper s) = Some price ->
  AccountsWorking.sell_shares get_share_price now s q self
  = (Returned tt,
     {| AccountsWorking.account_holder_name :=
          AccountsWorking.account_holder_name self;
        AccountsWorking.cash_balance :=
          AccountsWorking.cash_balance self + price * of_int q;
        AccountsWorking.initial_deposit :=
          AccountsWorking.initial_deposit self;
        AccountsWorking.holdings :=
          (if bool_decide (held - q = 0)%Z
           then delete (upper s) (AccountsWorking.holdings self)
           else <[upper s := (held - q)%Z]> (AccountsWorking.holdings self));
        AccountsWorking.transaction_history :=
          AccountsWorking.transaction_history self
          ++ [ {| AccountsWorking.timestamp := now;
                  AccountsWorking.type := "Sell";
                  AccountsWorking.symbol := upper s;
                  AccountsWorking.quantity := q;
                  AccountsWorking.price_per_share := price;
                  AccountsWorking.cash_impact := price * of_int q;
                  AccountsWorking.balance_after :=
                    AccountsWorking.cash_balance self + price * of_int q |} ]
     |}).
Proof.
  intros Hq Hlook Hheld Hprice.
  unfold AccountsWorking.sell_shares, AccountsWorking.append,
    AccountsWorking.lacks_shares. method_unfold.
  rewrite bool_decide_eq_false_2 by lia. simpl.
  rewrite Hlook, bool_decide_eq_false_2 by lia. rewrite Hprice. simpl.
  rewrite lookup_alter_eq, Hlook. simpl.
  destruct (bool_decide_reflect (held - q = 0)%Z) as [Hz | Hnz].
  - rewrite bool_decide_eq_true_2 by congruence. simpl.
    by rewrite delete_alter_eq.
  - rewrite bool_decide_eq_false_2 by congruence. simpl.
    do 2 f_equal. apply map_eq. intros k.
    destruct (decide (k = upper s)) as [-> | Hne].
    + by rewrite lookup_alter_eq, lookup_insert_eq, Hlook.
    + by rewrite lookup_alter_ne, lookup_insert_ne.
Qed.

Lemma accounts_buy_returns now s q price self :
  (0 < q)%Z ->
  get_share_price s = Some price ->
  price * of_int q <= Accounts.balance self ->
  Accounts.buy_shares get_share_price now s q self
  = (Returned tt,
     {| Accounts.account_id := Accounts.account_id self;
        Accounts.balance := Accounts.balance self - price * of_int q;
        Accounts.holdings :=
          <[s := (get0 (Accounts.holdings self) s + q)%Z]>
            (Accounts.holdings self);
        Accounts.transactions :=
          Accounts.transactions self
          ++ [ {| Accounts.timestamp := now;
                  Accounts.type := "BUY";
                  Accounts.symbol := Some s;
                  Accounts.quantity := Some q;
                  Accounts.price := Some price;
                  Accounts.amount := - (price * of_int q) |} ];
        Accounts.initial_deposit_total := Accounts.initial_deposit_total self
     |}).
Proof.
  intros Hq Hprice Hcash.
  unfold Accounts.buy_shares, Accounts._record_transaction. method_unfold.
  rewrite Hprice, !bool_decide_eq_false_2 by (try lia; by apply Qcle_not_lt).
  reflexivity.
Qed.

Lemma accounts_sell_returns now s q price held self :
  (0 < q)%Z ->
  Accounts.holdings self !! s = Some held ->
  (q <= held)%Z ->
  get_share_price s = Some price ->
  Accounts.sell_shares get_share_price now s q self
  = (Returned tt,
     {| Accounts.account_id := Accounts.account_id self;
        Accounts.balance := Accounts.balance self + price * of_int q;
        Accounts.holdings :=
          (if bool_decide (held - q = 0)%Z
           then delete s (Accounts.holdings self)
           else <[s := (held - q)%Z]> (Accounts.holdings self));
        Accounts.transactions :=
          Accounts.transactions self
          ++ [ {| Accounts.timestamp := now;
                  Accounts.type := "SELL";
                  Accounts.symbol := Some s;
                  Accounts.quantity := Some q;
                  Accounts.price := Some price;
                  Accounts.amount := price * of_int q |} ];
        Accounts.initial_deposit_total := Accounts.initial_deposit_total self
     |}).
Proof.
  intros Hq Hlook Hheld Hprice.
  unfold Accounts.sell_shares, Accounts._record_transaction. method_unfold.
  rewrite bool_decide_eq_false_2 by lia. simpl.
  rewrite bool_decide_eq_false_2
    by (unfold get0; rewrite Hlook; simpl; lia).
  rewrite Hprice. simpl.
  rewrite lookup_alter_eq, Hlook. simpl.
  destruct (bool_decide_reflect (held - q = 0)%Z) as [Hz | Hnz].
  - rewrite bool_decide_eq_true_2 by congruence. simpl.
    by rewrite delete_alter_eq.
  - rewrite bool_decide_eq_false_2 by congruence. simpl.
    do 2 f_equal. apply map_eq. intros k.
    destruct (decide (k = s)) as [-> | Hne].
    + by rewrite lookup_alter_eq, lookup_insert_eq, Hlook.
    + by rewrite lookup_alter_ne, lookup_insert_ne.
Qed.
End Trades.

(** ** Buying and selling back *)


Section RoundTrip.
Variable get_share_price : oracle.


End RoundTrip.



(** ** What every call preserves *)

Lemma cash_after_deposit (cash amount : Qc) :
  0 <= cash -> ~ amount <= 0 -> 0 <= cash + amount.
Proof.
  intros Hcash Hamount. apply Qcplus_nonneg_nonneg; [done |].
  by apply Qclt_le_weak, Qcnot_le_lt.
Qed.

Lemma cash_after_debit (cash amount : Qc) :
  amount <= cash -> 0 <= cash - amount.
Proof. intros Hle. unfold Qcminus. by apply (proj1 (Qcle_minus_iff _ _)). Qed.

Lemma cash_after_sale (cash price : Qc) (q : Z) :
  0 <= cash -> 0 <= price -> (0 < q)%Z -> 0 <= cash + price * of_int q.
Proof.
  intros Hcash Hprice Hq. apply Qcplus_nonneg_nonneg; [done |].
  apply Qcmult_nonneg_nonneg; [done |].
  unfold of_int. rewrite <- Z2Qc_inj_0. apply (proj1 (Z2Qc_inj_le 0 q)). lia.
Qed.

Lemma working_prices_nonneg : prices_nonneg AccountsWorking.get_share_price.
Proof.
  intros symbol price. unfold AccountsWorking.get_share_price.
  generalize (upper symbol). intros k Hk.
  apply (map_Forall_lookup_1 (fun _ p => 0 <= p) AccountsWorking.STOCK_PRICES k);
    [| done].
  unfold AccountsWorking.STOCK_PRICES. simpl.
  repeat (apply map_Forall_insert_2; [by vm_compute |]).
  apply map_Forall_empty.
Qed.

Lemma accounts_prices_nonneg : prices_nonneg Accounts.get_share_price.
Proof.
  intros symbol price Hprice.
  destruct (accounts_get_share_price_total symbol) as (p & Hp & Hpos).
  rewrite Hp in Hprice. injection Hprice as <-. by apply Qclt_le_weak.
Qed.

Lemma holdings_positive_get0 h symbol :
  holdings_positive h -> (0 <= get0 h symbol)%Z.
Proof.
  intros Hpos. unfold get0. destruct (h !! symbol) as [held |] eqn:Hlook; simpl.
  - apply Hpos in Hlook. lia.
  - lia.
Qed.

Lemma holdings_positive_bought h symbol q :
  holdings_positive h -> (0 < q)%Z ->
  holdings_positive (<[symbol := (get0 h symbol + q)%Z]> h).
Proof.
  intros Hpos Hq k held. rewrite lookup_insert. case_decide.
  - intros [= <-]. pose proof (holdings_positive_get0 h symbol Hpos). lia.
  - apply Hpos.
Qed.

Lemma holdings_positive_sold h symbol held q :
  holdings_positive h -> (q <= held)%Z ->
  holdings_positive
    (if bool_decide (held - q = 0)%Z then delete symbol h
     else <[symbol := (held - q)%Z]> h).
Proof.
  intros Hpos Hle k v. case_bool_decide.
  - rewrite lookup_delete. case_decide; [done | apply Hpos].
  - rewrite lookup_insert. case_decide; [| apply Hpos].
    intros [= <-]. lia.
Qed.

Section Preservation.
Variable get_share_price : oracle.
Hypothesis prices : prices_nonneg get_share_price.

(** The guards a returning trade has passed. *)
Lemma working_buy_guards now s q self :
  fst (AccountsWorking.buy_shares get_share_price now s q self) = Returned tt ->
  (0 < q)%Z
  /\ exists price,
       get_share_price (upper s) = Some price
       /\ price * of_int q <= AccountsWorking.cash_balance self.
Proof.
  unfold AccountsWorking.buy_shares, AccountsWorking.append. method_unfold.
  method_cases; simpl; try congruence.
  intros _. split; [lia |]. eexists. split; [reflexivity |].
  by apply Qcnot_lt_le.
Qed.

Lemma working_sell_guards now s q self :
  fst (AccountsWorking.sell_shares get_share_price now s q self) = Returned tt ->
  (0 < q)%Z
  /\ exists held price,
       AccountsWorking.holdings self !! upper s = Some held
       /\ (q <= held)%Z
       /\ get_share_price (upper s) = Some price.
Proof.
  intros Hret.
  destruct (decide (0 < q)%Z) as [Hq | Hq].
  - split; [done |].
    destruct (decide (get0 (AccountsWorking.holdings self) (upper s) < q)%Z)
      as [Hlt | Hge].
    { rewrite working_sell_insufficient in Hret by done. discriminate Hret. }
    destruct (get_share_price (upper s)) as [price |] eqn:Hprice.
    + unfold get0 in Hge.
      destruct (AccountsWorking.holdings self !! upper s) as [held |] eqn:Hlook;
        simpl in Hge; [| lia].
      exists held, price. repeat split; [lia].
    + rewrite working_sell_unknown in Hret by (done || lia).
      discriminate Hret.
  - revert Hret. unfold AccountsWorking.sell_shares. method_unfold.
    rewrite bool_decide_eq_true_2 by lia. simpl. congruence.
Qed.

Lemma accounts_buy_guards now s q self :
  fst (Accounts.buy_shares get_share_price now s q self) = Returned tt ->
  (0 < q)%Z
  /\ exists price,
       get_share_price s = Some price
       /\ price * of_int q <= Accounts.balance self.
Proof.
  unfold Accounts.buy_shares, Accounts._record_transaction. method_unfold.
  method_cases; simpl; try congruence.
  intros _. split; [lia |]. eexists. split; [reflexivity |].
  by apply Qcnot_lt_le.
Qed.

Lemma accounts_sell_guards now s q self :
  fst (Accounts.sell_shares get_share_price now s q self) = Returned tt ->
  (0 < q)%Z
  /\ exists held price,
       Accounts.holdings self !! s = Some held
       /\ (q <= held)%Z
       /\ get_share_price s = Some price.
Proof.
  intros Hret.
  destruct (decide (0 < q)%Z) as [Hq | Hq].
  - split; [done |].
    destruct (decide (get0 (Accounts.holdings self) s < q)%Z) as [Hlt | Hge].
    { rewrite accounts_sell_insufficient in Hret by done. discriminate Hret. }
    destruct (get_share_price s) as [price |] eqn:Hprice.
    + unfold get0 in Hge.
      destruct (Accounts.holdings self !! s) as [held |] eqn:Hlook;
        simpl in Hge; [| lia].
      exists held, price. repeat split; [lia].
    + rewrite accounts_sell_unknown in Hret by (done || lia).
      discriminate Hret.
  - revert Hret. unfold Accounts.sell_shares. method_unfold.
    rewrite bool_decide_eq_true_2 by lia. simpl. congruence.
Qed.

Lemma working_invoke_preserves now c self :
  working_invariant self ->
  working_invariant (snd (AccountsWorking.invoke get_share_price now c self)).
Proof.
  intros [Hcash Hpos]. destruct c as [amount | amount | s q | s q]; simpl.
  - unfold AccountsWorking.deposit, AccountsWorking.append. method_unfold.
    method_cases; simpl; [by split |].
    split; [by apply cash_after_deposit | done].
  - unfold AccountsWorking.withdraw, AccountsWorking.append. method_unfold.
    method_cases; simpl; try (by split).
    split; [by apply cash_after_debit, Qcnot_lt_le | done].
  - pose proof (working_invoke_all_or_nothing get_share_price now
                  (AccountsWorking.Buy s q) self) as Hall.
    pose proof (working_buy_guards now s q self) as Hguards.
    simpl in Hall.
    destruct (AccountsWorking.buy_shares get_share_price now s q self)
      as [[[] | e k] self'] eqn:Hbuy; simpl in *; [| by subst].
    destruct Hguards as (Hq & price & Hprice & Hcost); [done |].
    rewrite (working_buy_returns _ now s q price self) in Hbuy by done.
    injection Hbuy as <-. split; simpl.
    + by apply cash_after_debit.
    + by apply holdings_positive_bought.
  - pose proof (working_invoke_all_or_nothing get_share_price now
                  (AccountsWorking.Sell s q) self) as Hall.
    pose proof (working_sell_guards now s q self) as Hguards.
    simpl in Hall.
    destruct (AccountsWorking.sell_shares get_share_price now s q self)
      as [[[] | e k] self'] eqn:Hsell; simpl in *; [| by subst].
    destruct Hguards as (Hq & held & price & Hlook & Hheld & Hprice); [done |].
    rewrite (working_sell_returns _ now s q price held self) in Hsell by done.
    injection Hsell as <-. split; simpl.
    + apply cash_after_sale; [done | by eapply prices | done].
    + by apply holdings_positive_sold.
Qed.

Lemma accounts_invoke_preserves now c self :
  accounts_invariant self ->
  accounts_invariant (snd (Accounts.invoke get_share_price now c self)).
Proof.
  intros [Hcash Hpos]. destruct c as [amount | amount | s q | s q]; simpl.
  - unfold Accounts.deposit, Accounts._record_transaction. method_unfold.
    method_cases; simpl; [by split |].
    split; [by apply cash_after_deposit | done].
  - unfold Accounts.withdraw, Accounts._record_transaction. method_unfold.
    method_cases; simpl; try (by split).
    split; [by apply cash_after_debit, Qcnot_lt_le | done].
  - pose proof (accounts_invoke_all_or_nothing get_share_price now
                  (Accounts.Buy s q) self) as Hall.
    pose proof (accounts_buy_guards now s q self) as Hguards.
    simpl in Hall.
    destruct (Accounts.buy_shares get_share_price now s q self)
      as [[[] | e k] self'] eqn:Hbuy; simpl in *; [| by subst].
    destruct Hguards as (Hq & price & Hprice & Hcost); [done |].
    rewrite (accounts_buy_returns _ now s q price self) in Hbuy by done.
    injection Hbuy as <-. split; simpl.
    + by apply cash_after_debit.
    + by apply holdings_positive_bought.
  - pose proof (accounts_invoke_all_or_nothing get_share_price now
                  (Accounts.Sell s q) self) as Hall.
    pose proof (accounts_sell_guards now s q self) as Hguards.
    simpl in Hall.
    destruct (Accounts.sell_shares get_share_price now s q self)
      as [[[] | e k] self'] eqn:Hsell; simpl in *; [| by subst].
    destruct Hguards as (Hq & held & price & Hlook & Hheld & Hprice); [done |].
    rewrite (accounts_sell_returns _ now s q price held self) in Hsell by done.
    injection Hsell as <-. split; simpl.
    + apply cash_after_sale; [done | by eapply prices | done].
    + by apply holdings_positive_sold.
Qed.

Lemma working_run_preserves cs self :
  working_invariant self ->
  working_invariant (AccountsWorking.run get_share_price cs self).
Proof.
  revert self. induction cs as [| [now c] cs IH]; intros self Hinv; simpl.
  - done.
  - apply IH. by apply working_invoke_preserves.
Qed.

Lemma accounts_run_preserves cs self :
  accounts_invariant self ->
  accounts_invariant (Accounts.run get_share_price cs self).
Proof.
  revert self. induction cs as [| [now c] cs IH]; intros self Hinv; simpl.
  - done.
  - apply IH. by apply accounts_invoke_preserves.
Qed.
End Preservation.

(** ** Opening an account *)

Lemma accounts_fresh_invariant account_id :
  accounts_invariant (Accounts.__init__ account_id).
Proof. split; simpl; [done |]. intros s held. by rewrite lookup_empty. Qed.

Lemma working_fresh_invariant name initial_deposit :
  0 <= initial_deposit ->
  working_invariant (AccountsWorking.__init__ name initial_deposit).
Proof.
  intros Hd. split; simpl; [done |]. intros s held. by rewrite lookup_empty.
Qed.

(** From an account of accounts.py as created, and from an account of
    accounts_working.py opened with an amount that is not negative, the
    invariant holds after any sequence of calls. *)
Lemma invariant_after_any_calls :
  (forall account_id cs,
     accounts_invariant
       (Accounts.run Accounts.get_share_price cs (Accounts.__init__ account_id)))
  /\
  (forall name initial_deposit cs,
     0 <= initial_deposit ->
     working_invariant
       (AccountsWorking.run AccountsWorking.get_share_price cs
          (AccountsWorking.__init__ name initial_deposit))).
Proof.
  split.
  - intros account_id cs.
    apply accounts_run_preserves;
      [apply accounts_prices_nonneg | apply accounts_fresh_invariant].
  - intros name d cs Hd.
    apply working_run_preserves;
      [apply working_prices_nonneg | by apply working_fresh_invariant].
Qed.

(** C4 at the input where accounts_working.py breaks it: an account opened
    with -10 (the constructor does not look at the sign, although deposit
    does and the repository's test of the constructor expects a ValueError)
    has a negative cash balance before any call and still after a failed
    one. *)
Theorem negative_opening_deposit_breaks_cash_invariant :
  let fresh := AccountsWorking.__init__ "Bad Investor" (dec (-10) 1) in
  AccountsWorking.cash_balance fresh = dec (-10) 1
  /\ ~ working_invariant (AccountsWorking.run AccountsWorking.get_share_price [] fresh)
  /\ ~ working_invariant
         (AccountsWorking.run AccountsWorking.get_share_price
            [(1%Z, AccountsWorking.Withdraw (dec 5 1))] fresh).
Proof.
  repeat apply conj; [reflexivity | |]; intros [Hcash _]; revert Hcash;
    by vm_compute.
Qed.

(** C9 at the input where accounts_working.py breaks it: opening an account
    with 1000 sets the cash balance and the baseline, and records nothing. *)
Theorem opening_deposit_is_not_recorded :
  let fresh := AccountsWorking.__init__ "Jane Doe" (dec 1000 1) in
  0 < dec 1000 1
  /\ AccountsWorking.cash_balance fresh = dec 1000 1
  /\ AccountsWorking.initial_deposit fresh = dec 1000 1
  /\ AccountsWorking.transaction_history fresh = []
  /\ length (AccountsWorking.transaction_history fresh) <> 1%nat.
Proof. repeat apply conj; (reflexivity || discriminate). Qed.

(** C10. The constructor of accounts_working.py does not validate the
    opening amount: for every negative x the account is created, with cash
    balance x, baseline x, no holdings and an empty transaction history, so
    its cash balance is negative; and the cash balance is non-negative
    after every sequence of calls exactly when the opening amount is
    non-negative. *)
Theorem opening_deposit_unvalidated (name : string) (x : Qc) (Hx : x < 0) :
  let fresh := AccountsWorking.__init__ name x in
  AccountsWorking.cash_balance fresh = x
  /\ AccountsWorking.initial_deposit fresh = x
  /\ AccountsWorking.holdings fresh = ∅
  /\ AccountsWorking.transaction_history fresh = []
  /\ ~ 0 <= AccountsWorking.cash_balance fresh
  /\ (forall y,
        (forall cs,
           0 <= AccountsWorking.cash_balance
                  (AccountsWorking.run AccountsWorking.get_share_price cs
                     (AccountsWorking.__init__ name y)))
        <-> 0 <= y).
Proof.
  simpl. repeat apply conj; try reflexivity.
  - by apply Qclt_not_le.
  - intros y. split.
    + intros Hall. apply (Hall []).
    + intros Hy cs.
      by destruct (proj2 invariant_after_any_calls name y cs Hy) as [Hcash _].
Qed.

Lemma opening_deposit_unvalidated_witness :
  dec (-10) 1 < 0
  /\ AccountsWorking.cash_balance
       (AccountsWorking.__init__ "Bad Investor" (dec (-10) 1)) = dec (-10) 1
  /\ AccountsWorking.transaction_history
       (AccountsWorking.__init__ "Bad Investor" (dec (-10) 1)) = [].
Proof.
  assert (Hx : dec (-10) 1 < 0) by reflexivity.
  split; [exact Hx |].
  pose proof (opening_deposit_unvalidated "Bad Investor" (dec (-10) 1) Hx)
    as (Hcash & _ & _ & Hhistory & _).
  split; [exact Hcash | exact Hhistory].
Defined.

(** ** Valuation *)

Section Valuation.
Variable get_share_price : oracle.

Lemma working_sum_items_raises items total self symbol quantity :
  In (symbol, quantity) items ->
  get_share_price symbol = None ->
  AccountsWorking.sum_items get_share_price items total self
  = (Raised ValueError UnknownSymbol, self).
Proof.
  intros Hin Hnone. revert total.
  induction items as [| [s q] rest IH]; intros total; [destruct Hin |].
  simpl. method_unfold.
  destruct (get_share_price s) as [price |] eqn:Hprice; simpl; [| done].
  destruct Hin as [[= -> ->] | Hin]; [congruence |].
  by apply IH.
Qed.

(** accounts_working.py: one held symbol without a price makes the whole
    valuation raise. *)
Lemma working_value_raises self symbol held :
  AccountsWorking.holdings self !! symbol = Some held ->
  get_share_price symbol = None ->
  AccountsWorking.calculate_current_holdings_value get_share_price self
  = (Raised ValueError UnknownSymbol, self).
Proof.
  intros Hlook Hnone.
  unfold AccountsWorking.calculate_current_holdings_value. method_unfold.
  apply (working_sum_items_raises _ _ _ symbol held); [| done].
  by apply list_elem_of_In, elem_of_map_to_list.
Qed.
End Valuation.

(** C5 at the input where accounts_working.py breaks it (the holdings of the
    repository's valuation test): with AAPL, TSLA and the unpriced DUD held,
    calculate_current_holdings_value raises ValueError; the loop the tests
    were run against skips DUD and returns 2 * 150 + 1 * 850. *)
Theorem holdings_value_raises_on_unpriced_symbol :
  let self :=
    AccountsWorking.set_holdings
      (list_to_map [("AAPL", 2%Z); ("TSLA", 1%Z); ("DUD", 10%Z)])
      (AccountsWorking.__init__ "Valuer" (dec 100 1)) in
  AccountsWorking.get_share_price "DUD" = None
  /\ AccountsWorking.calculate_current_holdings_value
       AccountsWorking.get_share_price self
     = (Raised ValueError UnknownSymbol, self)
  /\ TestAccounts.calculate_current_holdings_value
       AccountsWorking.get_share_price (AccountsWorking.holdings self)
     = dec 1150 1.
Proof.
  repeat apply conj.
  - reflexivity.
  - by apply (working_value_raises _ _ "DUD" 10%Z).
  - by apply Qc_is_canon.
Qed.

(** accounts.py: with its own price function the valuation always
    returns, and an unlisted symbol counts at 100.00 a share. *)
Lemma accounts_sum_items_returns items total self :
  exists stock_value,
    Accounts.sum_items Accounts.get_share_price items total self
    = (Returned stock_value, self).
Proof.
  revert total. induction items as [| [s q] rest IH]; intros total; simpl.
  - by eexists.
  - case_bool_decide; [| apply IH].
    destruct (accounts_get_share_price_total s) as (price & Hprice & _).
    method_unfold. rewrite Hprice. simpl. apply IH.
Qed.

Lemma accounts_value_returns self :
  exists value,
    Accounts.calculate_portfolio_value Accounts.get_share_price self
    = (Returned value, self)
    /\ Accounts.cash_value value = Accounts.balance self
    /\ Accounts.total_value value
       = Accounts.balance self + Accounts.stock_value value.
Proof.
  unfold Accounts.calculate_portfolio_value.
  destruct (accounts_sum_items_returns
              (map_to_list (Accounts.holdings self)) 0 self) as [v Hv].
  method_unfold. simpl. rewrite Hv. simpl. by eexists.
Qed.

Lemma accounts_value_counts_unlisted_symbol :
  let self :=
    Accounts.set_holdings {[ "DUD" := 10%Z ]} (Accounts.__init__ "Valuer") in
  exists value,
    Accounts.calculate_portfolio_value Accounts.get_share_price self
    = (Returned value, self)
    /\ Accounts.stock_value value = dec 1000 1.
Proof.
  simpl. eexists. split; [reflexivity |]. by apply Qc_is_canon.
Qed.

(** ** A worked scenario *)

(** The scenario of the specification, run on accounts.py: deposit 10000,
    buy 10 AAPL and 1 GOOGL, sell 5 AAPL, withdraw 500. *)
Example accounts_scenario :
  let final :=
    Accounts.run Accounts.get_share_price
      [ (0%Z, Accounts.Deposit (dec 10000 1));
        (1%Z, Accounts.Buy "AAPL" 10);
        (2%Z, Accounts.Buy "GOOGL" 1);
        (3%Z, Accounts.Sell "AAPL" 5);
        (4%Z, Accounts.Withdraw (dec 500 1)) ]
      (Accounts.__init__ "SimulatedUser1") in
  Accounts.balance final = dec 614725 100
  /\ Accounts.holdings final !! "AAPL" = Some 5%Z
  /\ Accounts.holdings final !! "GOOGL" = Some 1%Z
  /\ size (Accounts.holdings final) = 2%nat
  /\ length (Accounts.transactions final) = 5%nat
  /\ match
       Accounts.calculate_portfolio_value Accounts.get_share_price final
     with
     | (Returned value, _) =>
         Some (this (Accounts.total_value value),
               this (Accounts.total_value value
                     - Accounts.initial_deposit_total final))
     | (Raised _ _, _) => None
     end = Some (Qmake 9500 1, Qmake (-500) 1).
Proof.
  repeat apply conj.
  - apply Qc_is_canon. vm_compute. reflexivity.
  - vm_compute. reflexivity.
  - vm_compute. reflexivity.
  - vm_compute. reflexivity.
  - vm_compute. reflexivity.
  - vm_compute. reflexivity.
Qed.


(** * Further properties of the two ledgers *)

(** ** Cash calls *)

Lemma working_withdraw_returns now amount self :
  0 < amount ->
  amount <= AccountsWorking.cash_balance self ->
  AccountsWorking.withdraw now amount self
  = (Returned tt,
     {| AccountsWorking.account_holder_name :=
          AccountsWorking.account_holder_name self;
        AccountsWorking.cash_balance :=
          AccountsWorking.cash_balance self - amount;
        AccountsWorking.initial_deposit := AccountsWorking.initial_deposit self;
        AccountsWorking.holdings := AccountsWorking.holdings self;
        AccountsWorking.transaction_history :=
          AccountsWorking.transaction_history self
          ++ [ {| AccountsWorking.timestamp := now;
                  AccountsWorking.type := "Withdrawal";
                  AccountsWorking.symbol := "CASH";
                  AccountsWorking.quantity := 1;
                  AccountsWorking.price_per_share := amount;
                  AccountsWorking.cash_impact := - amount;
                  AccountsWorking.balance_after :=
                    AccountsWorking.cash_balance self - amount |} ] |}).
Proof.
  intros Hpos Hle. unfold AccountsWorking.withdraw, AccountsWorking.append.
  method_unfold.
  rewrite !bool_decide_eq_false_2
    by (by apply Qclt_not_le || by apply Qcle_not_lt).
  reflexivity.
Qed.

Lemma accounts_withdraw_returns now amount self :
  0 < amount ->
  amount <= Accounts.balance self ->
  Accounts.withdraw now amount self
  = (Returned tt,
     {| Accounts.account_id := Accounts.account_id self;
        Accounts.balance := Accounts.balance self - amount;
        Accounts.holdings := Accounts.holdings self;
        Accounts.transactions :=
          Accounts.transactions self
          ++ [ {| Accounts.timestamp := now;
                  Accounts.type := "WITHDRAW";
                  Accounts.symbol := None;
                  Accounts.quantity := None;
                  Accounts.price := None;
                  Accounts.amount := - amount |} ];
        Accounts.initial_deposit_total := Accounts.initial_deposit_total self
     |}).
Proof.
  intros Hpos Hle. unfold Accounts.withdraw, Accounts._record_transaction.
  method_unfold.
  rewrite !bool_decide_eq_false_2
    by (by apply Qclt_not_le || by apply Qcle_not_lt).
  reflexivity.
Qed.

(** X1. A withdrawal of w with 0 < w <= cash returns on both ledgers: cash
    goes down by w, one withdrawal record with impact -w is appended, and
    holdings and the deposit baseline stay as they were (a withdrawal of
    the whole balance is allowed and leaves 0). *)
Theorem withdraw_debits_cash_and_records (now : Z) (w : Qc) (Hw : 0 < w) :
  (forall self,
     w <= AccountsWorking.cash_balance self ->
     AccountsWorking.withdraw now w self
     = (Returned tt,
        {| AccountsWorking.account_holder_name :=
             AccountsWorking.account_holder_name self;
           AccountsWorking.cash_balance :=
             AccountsWorking.cash_balance self - w;
           AccountsWorking.initial_deposit :=
             AccountsWorking.initial_deposit self;
           AccountsWorking.holdings := AccountsWorking.holdings self;
           AccountsWorking.transaction_history :=
             AccountsWorking.transaction_history self
             ++ [ {| AccountsWorking.timestamp := now;
                     AccountsWorking.type := "Withdrawal";
                     AccountsWorking.symbol := "CASH";
                     AccountsWorking.quantity := 1;
                     AccountsWorking.price_per_share := w;
                     AccountsWorking.cash_impact := - w;
                     AccountsWorking.balance_after :=
                       AccountsWorking.cash_balance self - w |} ] |}))
  /\
  (forall self,
     w <= Accounts.balance self ->
     Accounts.withdraw now w self
     = (Returned tt,
        {| Accounts.account_id := Accounts.account_id self;
           Accounts.balance := Accounts.balance self - w;
           Accounts.holdings := Accounts.holdings self;
           Accounts.transactions :=
             Accounts.transactions self
             ++ [ {| Accounts.timestamp := now;
                     Accounts.type := "WITHDRAW";
                     Accounts.symbol := None;
                     Accounts.quantity := None;
                     Accounts.price := None;
                     Accounts.amount := - w |} ];
           Accounts.initial_deposit_total :=
             Accounts.initial_deposit_total self |})).
Proof.
  split; intros self Hle.
  - by apply working_withdraw_returns.
  - by apply accounts_withdraw_returns.
Qed.

Lemma withdraw_debits_cash_and_records_witness :
  0 < dec 1000 1
  /\ AccountsWorking.cash_balance
       (snd (AccountsWorking.withdraw 4 (dec 1000 1)
               (AccountsWorking.__init__ "Demo Trader" (dec 1000 1))))
     = dec 1000 1 - dec 1000 1.
Proof.
  assert (Hw : 0 < dec 1000 1) by reflexivity.
  split; [exact Hw |].
  rewrite (proj1 (withdraw_debits_cash_and_records 4 (dec 1000 1) Hw)
             (AccountsWorking.__init__ "Demo Trader" (dec 1000 1))).
  - reflexivity.
  - apply Qcle_refl.
Defined.

(** X2. An amount that is zero or negative is rejected by deposit and by
    withdraw on both ledgers, before the balance is looked at, and the
    account is unchanged: TradingError in accounts_working.py, ValueError
    in accounts.py. *)
Theorem nonpositive_amount_rejected (now : Z) (amount : Qc)
    (Hamount : amount <= 0) :
  (forall self,
     AccountsWorking.deposit now amount self
     = (Raised TradingError InvalidAmount, self))
  /\ (forall self,
        AccountsWorking.withdraw now amount self
        = (Raised TradingError InvalidAmount, self))
  /\ (forall self,
        Accounts.deposit now amount self
        = (Raised ValueError InvalidAmount, self))
  /\ (forall self,
        Accounts.withdraw now amount self
        = (Raised ValueError InvalidAmount, self)).
Proof.
  repeat apply conj; intros self;
    unfold AccountsWorking.deposit, AccountsWorking.withdraw,
      Accounts.deposit, Accounts.withdraw;
    method_unfold; by rewrite bool_decide_eq_true_2.
Qed.

Lemma nonpositive_amount_rejected_witness :
  0 <= 0
  /\ Accounts.deposit 3 0 (Accounts.__init__ "SimulatedUser1")
     = (Raised ValueError InvalidAmount, Accounts.__init__ "SimulatedUser1").
Proof.
  assert (H0 : 0 <= 0) by apply Qcle_refl.
  split; [exact H0 |].
  apply (proj1 (proj2 (proj2 (nonpositive_amount_rejected 3 0 H0)))).
Defined.

(** X3. A positive withdrawal above the cash balance is rejected with
    InsufficientFunds (TradingError in accounts_working.py,
    InsufficientFundsError in accounts.py) and changes nothing. *)
Theorem overdraft_rejected (now : Z) (w : Qc) (Hw : 0 < w) :
  (forall self,
     AccountsWorking.cash_balance self < w ->
     AccountsWorking.withdraw now w self
     = (Raised TradingError InsufficientFunds, self))
  /\
  (forall self,
     Accounts.balance self < w ->
     Accounts.withdraw now w self
     = (Raised InsufficientFundsError InsufficientFunds, self)).
Proof.
  split; intros self Hlt;
    unfold AccountsWorking.withdraw, Accounts.withdraw; method_unfold;
    rewrite bool_decide_eq_false_2 by (by apply Qclt_not_le); simpl;
    by rewrite bool_decide_eq_true_2.
Qed.

Lemma overdraft_rejected_witness :
  0 < dec 10001 100
  /\ Accounts.withdraw 2 (dec 10001 100)
       (Accounts.set_balance (dec 100 1) (Accounts.__init__ "test_acc_123"))
     = (Raised InsufficientFundsError InsufficientFunds,
        Accounts.set_balance (dec 100 1) (Accounts.__init__ "test_acc_123")).
Proof.
  assert (Hw : 0 < dec 10001 100) by reflexivity.
  split; [exact Hw |].
  apply (proj2 (overdraft_rejected 2 (dec 10001 100) Hw)). reflexivity.
Defined.

(** ** Trades *)

(** X4. A quantity that is zero or negative is rejected by buy and by sell
    on both ledgers before anything else: whatever the symbol, the price
    function, the cash and the holdings are, the call raises
    InvalidQuantity and the account is unchanged. *)
Theorem nonpositive_quantity_rejected_first (get_share_price : oracle)
    (now : Z) (symbol : string) (q : Z) (Hq : (q <= 0)%Z) :
  (forall self,
     AccountsWorking.buy_shares get_share_price now symbol q self
     = (Raised TradingError InvalidQuantity, self))
  /\ (forall self,
        AccountsWorking.sell_shares get_share_price now symbol q self
        = (Raised TradingError InvalidQuantity, self))
  /\ (forall self,
        Accounts.buy_shares get_share_price now symbol q self
        = (Raised ValueError InvalidQuantity, self))
  /\ (forall self,
        Accounts.sell_shares get_share_price now symbol q self
        = (Raised ValueError InvalidQuantity, self)).
Proof.
  repeat apply conj; intros self;
    unfold AccountsWorking.buy_shares, AccountsWorking.sell_shares,
      Accounts.buy_shares, Accounts.sell_shares;
    method_unfold; by rewrite bool_decide_eq_true_2.
Qed.

Lemma nonpositive_quantity_rejected_first_witness :
  (0 <= 0)%Z
  /\ AccountsWorking.buy_shares AccountsWorking.get_share_price 6 "XYZ" 0
       (AccountsWorking.__init__ "Jane Doe" (dec 1000 1))
     = (Raised TradingError InvalidQuantity,
        AccountsWorking.__init__ "Jane Doe" (dec 1000 1)).
Proof.
  assert (Hq : (0 <= 0)%Z) by lia.
  split; [exact Hq |].
  apply (proj1 (nonpositive_quantity_rejected_first
                  AccountsWorking.get_share_price 6 "XYZ" 0 Hq)).
Defined.

(** X5. A buy of q > 0 shares of a priced symbol whose cost, price times q,
    is above the cash balance is rejected with InsufficientFunds
    (TradingError in accounts_working.py, InsufficientFundsError in
    accounts.py) and changes nothing. *)
Theorem buy_beyond_cash_rejected (get_share_price : oracle) (now : Z)
    (symbol : string) (q : Z) (price : Qc) (Hq : (0 < q)%Z) :
  (forall self,
     get_share_price (upper symbol) = Some price ->
     AccountsWorking.cash_balance self < price * of_int q ->
     AccountsWorking.buy_shares get_share_price now symbol q self
     = (Raised TradingError InsufficientFunds, self))
  /\
  (forall self,
     get_share_price symbol = Some price ->
     Accounts.balance self < price * of_int q ->
     Accounts.buy_shares get_share_price now symbol q self
     = (Raised InsufficientFundsError InsufficientFunds, self)).
Proof.
  split; intros self Hprice Hcash;
    unfold AccountsWorking.buy_shares, Accounts.buy_shares; method_unfold;
    rewrite Hprice, bool_decide_eq_false_2 by lia; simpl;
    by rewrite bool_decide_eq_true_2.
Qed.

Lemma buy_beyond_cash_rejected_witness :
  (0 < 2)%Z
  /\ AccountsWorking.buy_shares AccountsWorking.get_share_price 8 "GOOGL" 2
       (AccountsWorking.__init__ "Jane Doe" (dec 1000 1))
     = (Raised TradingError InsufficientFunds,
        AccountsWorking.__init__ "Jane Doe" (dec 1000 1)).
Proof.
  assert (Hq : (0 < 2)%Z) by lia.
  split; [exact Hq |].
  apply (proj1 (buy_beyond_cash_rejected AccountsWorking.get_share_price
                  8 "GOOGL" 2 (dec 2500 1) Hq)).
  - reflexivity.
  - reflexivity.
Defined.

(** X6. A buy of q > 0 shares of a priced symbol that the cash covers
    returns on both ledgers: cash goes down by price times q, the holding
    of the symbol (upper-cased in accounts_working.py) goes up by q from
    what [get(symbol, 0)] gives, one buy record with the price and the
    negative cost is appended, and nothing else changes.  Cash equal to the
    cost is enough. *)
Theorem buy_debits_cash_and_adds_shares (get_share_price : oracle) (now : Z)
    (symbol : string) (q : Z) (price : Qc) (Hq : (0 < q)%Z) :
  (forall self,
     get_share_price (upper symbol) = Some price ->
     price * of_int q <= AccountsWorking.cash_balance self ->
     AccountsWorking.buy_shares get_share_price now symbol q self
     = (Returned tt,
        {| AccountsWorking.account_holder_name :=
             AccountsWorking.account_holder_name self;
           AccountsWorking.cash_balance :=
             AccountsWorking.cash_balance self - price * of_int q;
           AccountsWorking.initial_deposit :=
             AccountsWorking.initial_deposit self;
           AccountsWorking.holdings :=
             <[upper symbol :=
                 (get0 (AccountsWorking.holdings self) (upper symbol) + q)%Z]>
               (AccountsWorking.holdings self);
           AccountsWorking.transaction_history :=
             AccountsWorking.transaction_history self
             ++ [ {| AccountsWorking.timestamp := now;
                     AccountsWorking.type := "Buy";
                     AccountsWorking.symbol := upper symbol;
                     AccountsWorking.quantity := q;
                     AccountsWorking.price_per_share := price;
                     AccountsWorking.cash_impact := - (price * of_int q);
                     AccountsWorking.balance_after :=
                       AccountsWorking.cash_balance self - price * of_int q |} ]
        |}))
  /\
  (forall self,
     get_share_price symbol = Some price ->
     price * of_int q <= Accounts.balance self ->
     Accounts.buy_shares get_share_price now symbol q self
     = (Returned tt,
        {| Accounts.account_id := Accounts.account_id self;
           Accounts.balance := Accounts.balance self - price * of_int q;
           Accounts.holdings :=
             <[symbol := (get0 (Accounts.holdings self) symbol + q)%Z]>
               (Accounts.holdings self);
           Accounts.transactions :=
             Accounts.transactions self
             ++ [ {| Accounts.timestamp := now;
                     Accounts.type := "BUY";
                     Accounts.symbol := Some symbol;
                     Accounts.quantity := Some q;
                     Accounts.price := Some price;
                     Accounts.amount := - (price * of_int q) |} ];
           Accounts.initial_deposit_total :=
             Accounts.initial_deposit_total self |})).
Proof.
  split; intros self Hprice Hcash.
  - by apply working_buy_returns.
  - by apply accounts_buy_returns.
Qed.

Lemma buy_debits_cash_and_adds_shares_witness :
  (0 < 5)%Z
  /\ Accounts.holdings
       (snd (Accounts.buy_shares Accounts.get_share_price 1 "AAPL" 5
               (Accounts.set_balance (dec 85250 100)
                  (Accounts.__init__ "test_acc_123"))))
       !! "AAPL" = Some 5%Z.
Proof.
  assert (Hq : (0 < 5)%Z) by lia.
  split; [exact Hq |].
  rewrite (proj2 (buy_debits_cash_and_adds_shares Accounts.get_share_price
                    1 "AAPL" 5 (dec 17050 100) Hq)
             (Accounts.set_balance (dec 85250 100)
                (Accounts.__init__ "test_acc_123"))).
  - reflexivity.
  - reflexivity.
  - vm_compute. discriminate.
Defined.

(** X7. A sale of q > 0 shares of a priced symbol of which [held] >= q are
    held returns on both ledgers: cash goes up by price times q, one sell
    record is appended, and the holding becomes held - q, the key being
    removed when that is 0 (selling everything) and kept otherwise;
    nothing else changes. *)
Theorem sell_credits_cash_and_removes_shares (get_share_price : oracle)
    (now : Z) (symbol : string) (q : Z) (price : Qc) (held : Z)
    (Hq : (0 < q)%Z) (Hheld : (q <= held)%Z) :
  (forall self,
     AccountsWorking.holdings self !! upper symbol = Some held ->
     get_share_price (upper symbol) = Some price ->
     AccountsWorking.sell_shares get_share_price now symbol q self
     = (Returned tt,
        {| AccountsWorking.account_holder_name :=
             AccountsWorking.account_holder_name self;
           AccountsWorking.cash_balance :=
             AccountsWorking.cash_balance self + price * of_int q;
           AccountsWorking.initial_deposit :=
             AccountsWorking.initial_deposit self;
           AccountsWorking.holdings :=
             (if bool_decide (held - q = 0)%Z
              then delete (upper symbol) (AccountsWorking.holdings self)
              else <[upper symbol := (held - q)%Z]>
                     (AccountsWorking.holdings self));
           AccountsWorking.transaction_history :=
             AccountsWorking.transaction_history self
             ++ [ {| AccountsWorking.timestamp := now;
                     AccountsWorking.type := "Sell";
                     AccountsWorking.symbol := upper symbol;
                     AccountsWorking.quantity := q;
                     AccountsWorking.price_per_share := price;
                     AccountsWorking.cash_impact := price * of_int q;
                     AccountsWorking.balance_after :=
                       AccountsWorking.cash_balance self + price * of_int q |} ]
        |}))
  /\
  (forall self,
     Accounts.holdings self !! symbol = Some held ->
     get_share_price symbol = Some price ->
     Accounts.sell_shares get_share_price now symbol q self
     = (Returned tt,
        {| Accounts.account_id := Accounts.account_id self;
           Accounts.balance := Accounts.balance self + price * of_int q;
           Accounts.holdings :=
             (if bool_decide (held - q = 0)%Z
              then delete symbol (Accounts.holdings self)
              else <[symbol := (held - q)%Z]> (Accounts.holdings self));
           Accounts.transactions :=
             Accounts.transactions self
             ++ [ {| Accounts.timestamp := now;
                     Accounts.type := "SELL";
                     Accounts.symbol := Some symbol;
                     Accounts.quantity := Some q;
                     Accounts.price := Some price;
                     Accounts.amount := price * of_int q |} ];
           Accounts.initial_deposit_total :=
             Accounts.initial_deposit_total self |})).
Proof.
  split; intros self Hlook Hprice.
  - by apply working_sell_returns.
  - by apply accounts_sell_returns.
Qed.

Lemma sell_credits_cash_and_removes_shares_witness :
  (0 < 6)%Z /\ (6 <= 6)%Z
  /\ Accounts.holdings
       (snd (Accounts.sell_shares Accounts.get_share_price 1 "TSLA" 6
               (Accounts.set_holdings {[ "TSLA" := 6%Z ]}
                  (Accounts.__init__ "test_acc_123"))))
     = ∅.
Proof.
  assert (Hq : (0 < 6)%Z) by lia.
  assert (Hheld : (6 <= 6)%Z) by lia.
  split; [exact Hq |]. split; [exact Hheld |].
  rewrite (proj2 (sell_credits_cash_and_removes_shares
                    Accounts.get_share_price 1 "TSLA" 6 (dec 750 1) 6
                    Hq Hheld)
             (Accounts.set_holdings {[ "TSLA" := 6%Z ]}
                (Accounts.__init__ "test_acc_123"))).
  - simpl. apply delete_singleton_eq.
  - reflexivity.
  - reflexivity.
Defined.

(** ** Bookkeeping over any sequence of calls *)

Lemma sum_cash_impact_snoc history t :
  sum_cash_impact (history ++ [t])
  = sum_cash_impact history + AccountsWorking.cash_impact t.
Proof.
  unfold sum_cash_impact. induction history as [| t' rest IH]; simpl.
  - ring.
  - rewrite IH. ring.
Qed.

Lemma sum_amount_snoc transactions t :
  sum_amount (transactions ++ [t])
  = sum_amount transactions + Accounts.amount t.
Proof.
  unfold sum_amount. induction transactions as [| t' rest IH]; simpl.
  - ring.
  - rewrite IH. ring.
Qed.

Lemma sum_deposits_snoc transactions t :
  sum_deposits (transactions ++ [t])
  = sum_deposits transactions
    + (if bool_decide (Accounts.type t = "DEPOSIT")
       then Accounts.amount t else 0).
Proof.
  unfold sum_deposits. induction transactions as [| t' rest IH]; simpl.
  - ring.
  - rewrite IH. ring.
Qed.

Section Effects.
Variable get_share_price : oracle.

(** What one call does to the cash, the record list and the fields no
    call writes. *)
Lemma working_invoke_effect now c self :
  match AccountsWorking.invoke get_share_price now c self with
  | (Returned _, self') =>
      exists t,
        AccountsWorking.transaction_history self'
        = AccountsWorking.transaction_history self ++ [t]
        /\ AccountsWorking.cash_balance self'
           = AccountsWorking.cash_balance self + AccountsWorking.cash_impact t
        /\ AccountsWorking.balance_after t = AccountsWorking.cash_balance self'
        /\ AccountsWorking.timestamp t = now
        /\ AccountsWorking.initial_deposit self'
           = AccountsWorking.initial_deposit self
        /\ AccountsWorking.account_holder_name self'
           = AccountsWorking.account_holder_name self
  | (Raised _ _, self') => self' = self
  end.
Proof.
  destruct c; simpl;
    unfold AccountsWorking.deposit, AccountsWorking.withdraw,
      AccountsWorking.buy_shares, AccountsWorking.sell_shares,
      AccountsWorking.append;
    method_unfold; method_cases; try reflexivity;
    (eexists; repeat apply conj; simpl; reflexivity).
Qed.

Lemma accounts_invoke_effect now c self :
  match Accounts.invoke get_share_price now c self with
  | (Returned _, self') =>
      exists t,
        Accounts.transactions self' = Accounts.transactions self ++ [t]
        /\ Accounts.balance self' = Accounts.balance self + Accounts.amount t
        /\ Accounts.timestamp t = now
        /\ Accounts.account_id self' = Accounts.account_id self
        /\ Accounts.initial_deposit_total self'
           = Accounts.initial_deposit_total self
             + (if bool_decide (Accounts.type t = "DEPOSIT")
                then Accounts.amount t else 0)
        /\ (Accounts.type t = "DEPOSIT" -> 0 < Accounts.amount t)
  | (Raised _ _, self') => self' = self
  end.
Proof.
  destruct c; simpl;
    unfold Accounts.deposit, Accounts.withdraw,
      Accounts.buy_shares, Accounts.sell_shares,
      Accounts._record_transaction;
    method_unfold; method_cases; try reflexivity;
    (eexists; split; [reflexivity |]; simpl; repeat apply conj;
     [ reflexivity | reflexivity | reflexivity
     | rewrite ?bool_decide_eq_true_2 by reflexivity;
       rewrite ?bool_decide_eq_false_2 by discriminate;
       ring
     | intros Htype; first [ discriminate Htype | by apply Qcnot_le_lt ] ]).
Qed.

Lemma working_run_snoc cs c self :
  AccountsWorking.run get_share_price (cs ++ [c]) self
  = AccountsWorking.step get_share_price
      (AccountsWorking.run get_share_price cs self) c.
Proof. unfold AccountsWorking.run. by rewrite fold_left_app. Qed.

Lemma accounts_run_snoc cs c self :
  Accounts.run get_share_price (cs ++ [c]) self
  = Accounts.step get_share_price (Accounts.run get_share_price cs self) c.
Proof. unfold Accounts.run. by rewrite fold_left_app. Qed.
End Effects.

Lemma sum_cash_impact_app history1 history2 :
  sum_cash_impact (history1 ++ history2)
  = sum_cash_impact history1 + sum_cash_impact history2.
Proof.
  unfold sum_cash_impact. induction history1 as [| t rest IH]; simpl.
  - ring.
  - rewrite IH. ring.
Qed.

Lemma sum_amount_app transactions1 transactions2 :
  sum_amount (transactions1 ++ transactions2)
  = sum_amount transactions1 + sum_amount transactions2.
Proof.
  unfold sum_amount. induction transactions1 as [| t rest IH]; simpl.
  - ring.
  - rewrite IH. ring.
Qed.

Lemma sum_deposits_app transactions1 transactions2 :
  sum_deposits (transactions1 ++ transactions2)
  = sum_deposits transactions1 + sum_deposits transactions2.
Proof.
  unfold sum_deposits. induction transactions1 as [| t rest IH]; simpl.
  - ring.
  - rewrite IH. ring.
Qed.

Section RunEffects.
Variable get_share_price : oracle.

(** What a sequence of calls has done, in terms of the records it added. *)
Lemma working_run_effect cs self :
  exists new,
    AccountsWorking.transaction_history
      (AccountsWorking.run get_share_price cs self)
    = AccountsWorking.transaction_history self ++ new
    /\ (length new <= length cs)%nat
    /\ AccountsWorking.cash_balance
         (AccountsWorking.run get_share_price cs self)
       = AccountsWorking.cash_balance self + sum_cash_impact new
    /\ AccountsWorking.initial_deposit
         (AccountsWorking.run get_share_price cs self)
       = AccountsWorking.initial_deposit self
    /\ AccountsWorking.account_holder_name
         (AccountsWorking.run get_share_price cs self)
       = AccountsWorking.account_holder_name self
    /\ match last new with
       | Some t =>
           AccountsWorking.balance_after t
           = AccountsWorking.cash_balance
               (AccountsWorking.run get_share_price cs self)
       | None =>
           AccountsWorking.cash_balance
             (AccountsWorking.run get_share_price cs self)
           = AccountsWorking.cash_balance self
       end.
Proof.
  revert self. induction cs as [| [now c] cs IH]; intros self.
  - exists []. simpl. rewrite app_nil_r.
    repeat apply conj; simpl; try reflexivity; try lia; ring.
  - change (AccountsWorking.run get_share_price ((now, c) :: cs) self)
      with (AccountsWorking.run get_share_price cs
              (snd (AccountsWorking.invoke get_share_price now c self))).
    pose proof (working_invoke_effect get_share_price now c self) as Hcall.
    destruct (AccountsWorking.invoke get_share_price now c self)
      as [[[] | e k] self1]; simpl.
    + destruct Hcall as (t & Hhist & Hcash & Hafter & _ & Hbase & Hname).
      destruct (IH self1) as (new & Hhist' & Hlen & Hcash' & Hbase' & Hname' & Hlast).
      exists (t :: new). repeat apply conj.
      * rewrite Hhist', Hhist, <- app_assoc. reflexivity.
      * simpl. lia.
      * rewrite Hcash', Hcash. unfold sum_cash_impact. simpl. ring.
      * congruence.
      * congruence.
      * rewrite last_cons. destruct (last new) as [t' |]; [done |].
        congruence.
    + subst self1.
      destruct (IH self) as (new & Hhist' & Hlen & Hrest).
      exists new. repeat apply conj; try apply Hrest; [done | lia].
Qed.

Lemma accounts_run_effect cs self :
  exists new,
    Accounts.transactions (Accounts.run get_share_price cs self)
    = Accounts.transactions self ++ new
    /\ (length new <= length cs)%nat
    /\ Accounts.balance (Accounts.run get_share_price cs self)
       = Accounts.balance self + sum_amount new
    /\ Accounts.account_id (Accounts.run get_share_price cs self)
       = Accounts.account_id self
    /\ Accounts.initial_deposit_total (Accounts.run get_share_price cs self)
       = Accounts.initial_deposit_total self + sum_deposits new
    /\ 0 <= sum_deposits new.
Proof.
  revert self. induction cs as [| [now c] cs IH]; intros self.
  - exists []. simpl. rewrite app_nil_r.
    repeat apply conj; simpl; try reflexivity; try lia; try ring; done.
  - change (Accounts.run get_share_price ((now, c) :: cs) self)
      with (Accounts.run get_share_price cs
              (snd (Accounts.invoke get_share_price now c self))).
    pose proof (accounts_invoke_effect get_share_price now c self) as Hcall.
    destruct (Accounts.invoke get_share_price now c self)
      as [[[] | e k] self1]; simpl.
    + destruct Hcall as (t & Htx & Hbal & _ & Hid & Htotal & Hpos).
      destruct (IH self1) as (new & Htx' & Hlen & Hbal' & Hid' & Htotal' & Hnn).
      exists (t :: new). repeat apply conj.
      * rewrite Htx', Htx, <- app_assoc. reflexivity.
      * simpl. lia.
      * rewrite Hbal', Hbal. unfold sum_amount. simpl. ring.
      * congruence.
      * rewrite Htotal', Htotal. unfold sum_deposits. simpl. ring.
      * unfold sum_deposits. simpl. apply Qcplus_nonneg_nonneg; [| done].
        case_bool_decide; [by apply Qclt_le_weak, Hpos | done].
    + subst self1.
      destruct (IH self) as (new & Htx' & Hlen & Hrest).
      exists new. repeat apply conj; try apply Hrest; [done | lia].
Qed.
End RunEffects.

(** X8. The transaction list is append-only on both ledgers: after any
    sequence of calls, failed ones included, the list is the list before
    followed by new records, at most one per call. *)
Theorem history_is_append_only (get_share_price : oracle)
    (cs_working : list (Z * AccountsWorking.call))
    (cs_accounts : list (Z * Accounts.call)) :
  (forall self,
     exists new,
       AccountsWorking.transaction_history
         (AccountsWorking.run get_share_price cs_working self)
       = AccountsWorking.transaction_history self ++ new
       /\ (length new <= length cs_working)%nat)
  /\
  (forall self,
     exists new,
       Accounts.transactions (Accounts.run get_share_price cs_accounts self)
       = Accounts.transactions self ++ new
       /\ (length new <= length cs_accounts)%nat).
Proof.
  split; intros self.
  - destruct (working_run_effect get_share_price cs_working self)
      as (new & Hhist & Hlen & _).
    by exists new.
  - destruct (accounts_run_effect get_share_price cs_accounts self)
      as (new & Htx & Hlen & _).
    by exists new.
Qed.

(** X9. No call writes the identity or lowers the baseline.  In
    accounts_working.py the holder name and initial_deposit are the same
    after any sequence of calls (deposits included); in accounts.py the
    account id is the same and initial_deposit_total never decreases. *)
Theorem baseline_after_any_calls (get_share_price : oracle)
    (cs_working : list (Z * AccountsWorking.call))
    (cs_accounts : list (Z * Accounts.call)) :
  (forall self,
     AccountsWorking.account_holder_name
       (AccountsWorking.run get_share_price cs_working self)
     = AccountsWorking.account_holder_name self
     /\ AccountsWorking.initial_deposit
          (AccountsWorking.run get_share_price cs_working self)
        = AccountsWorking.initial_deposit self)
  /\
  (forall self,
     Accounts.account_id (Accounts.run get_share_price cs_accounts self)
     = Accounts.account_id self
     /\ Accounts.initial_deposit_total self
        <= Accounts.initial_deposit_total
             (Accounts.run get_share_price cs_accounts self)).
Proof.
  split; intros self.
  - destruct (working_run_effect get_share_price cs_working self)
      as (new & _ & _ & _ & Hbase & Hname & _).
    by split.
  - destruct (accounts_run_effect get_share_price cs_accounts self)
      as (new & _ & _ & _ & Hid & Htotal & Hnn).
    split; [done |]. rewrite Htotal.
    rewrite <- (Qcplus_0_r (Accounts.initial_deposit_total self)) at 1.
    by apply Qcplus_le_mono_l.
Qed.


(** X11. In accounts_working.py the balance_after field is a true
    snapshot: after any sequence of calls on a freshly opened account, the
    last record of the history, if there is one, shows the current cash
    balance, and with no record the cash balance is the opening amount. *)
Theorem last_record_shows_balance (get_share_price : oracle)
    (cs : list (Z * AccountsWorking.call)) (name : string) (d : Qc) :
  let final :=
    AccountsWorking.run get_share_price cs (AccountsWorking.__init__ name d) in
  match last (AccountsWorking.transaction_history final) with
  | Some t => AccountsWorking.balance_after t = AccountsWorking.cash_balance final
  | None => AccountsWorking.cash_balance final = d
  end.
Proof.
  intros final. subst final.
  destruct (working_run_effect get_share_price cs
              (AccountsWorking.__init__ name d))
    as (new & Hhist & _ & _ & _ & _ & Hlast).
  rewrite Hhist. exact Hlast.
Qed.


(** ** Valuation as a sum over the holdings *)

Lemma value_with_perm worth items items' :
  items ≡ₚ items' -> value_with worth items = value_with worth items'.
Proof.
  unfold value_with. induction 1 as [| x l l' _ IH | x y l | l l' l'' _ IH1 _ IH2];
    simpl.
  - reflexivity.
  - by rewrite IH.
  - ring.
  - by rewrite IH1.
Qed.

Lemma value_with_lookup worth (h : gmap string Z) k x :
  h !! k = Some x ->
  value_with worth (map_to_list h)
  = worth (k, x) + value_with worth (map_to_list (delete k h)).
Proof.
  intros Hlook. by rewrite <- (value_with_perm _ _ _ (map_to_list_delete h k x Hlook)).
Qed.

Lemma value_with_insert worth (h : gmap string Z) k x :
  value_with worth (map_to_list (<[k := x]> h))
  = worth (k, x) + value_with worth (map_to_list (delete k h)).
Proof.
  rewrite <- (insert_delete_eq h).
  rewrite (value_with_perm _ _ _
             (map_to_list_insert (delete k h) k x (lookup_delete_eq h k))).
  reflexivity.
Qed.

Lemma value_with_absent worth (h : gmap string Z) k :
  h !! k = None ->
  value_with worth (map_to_list (delete k h)) = value_with worth (map_to_list h).
Proof. intros Hnone. by rewrite delete_id. Qed.

Lemma of_int_add a b : of_int (a + b) = of_int a + of_int b.
Proof. apply Z2Qc_inj_add. Qed.

Lemma of_int_sub a b : of_int (a - b) = of_int a - of_int b.
Proof. apply Z2Qc_inj_sub. Qed.

Lemma of_int_0 : of_int 0 = 0.
Proof. apply Z2Qc_inj_0. Qed.

Section Worth.
Variable get_share_price : oracle.

Lemma worth_at_priced k x price :
  get_share_price k = Some price ->
  worth_at get_share_price (k, x) = price * of_int x.
Proof. intros Hprice. unfold worth_at. simpl. by rewrite Hprice. Qed.

Lemma worth_after_buy (h : gmap string Z) k q price :
  get_share_price k = Some price ->
  value_with (worth_at get_share_price)
    (map_to_list (<[k := (get0 h k + q)%Z]> h))
  = value_with (worth_at get_share_price) (map_to_list h) + price * of_int q.
Proof.
  intros Hprice. rewrite value_with_insert, (worth_at_priced _ _ price) by done.
  unfold get0. destruct (h !! k) as [x |] eqn:Hlook; simpl.
  - rewrite (value_with_lookup _ h k x), (worth_at_priced _ _ price) by done.
    rewrite of_int_add. ring.
  - rewrite value_with_absent by done. rewrite of_int_add, of_int_0. ring.
Qed.

Lemma worth_after_sell (h : gmap string Z) k q held price :
  h !! k = Some held ->
  get_share_price k = Some price ->
  value_with (worth_at get_share_price)
    (map_to_list (if bool_decide (held - q = 0)%Z then delete k h
                  else <[k := (held - q)%Z]> h))
  = value_with (worth_at get_share_price) (map_to_list h) - price * of_int q.
Proof.
  intros Hlook Hprice.
  rewrite (value_with_lookup _ h k held), (worth_at_priced _ _ price) by done.
  case_bool_decide as Hz.
  - replace held with q by lia. ring.
  - rewrite value_with_insert, (worth_at_priced _ _ price) by done.
    rewrite of_int_sub. ring.
Qed.

Lemma positive_worth_at_priced k x price :
  get_share_price k = Some price -> (0 < x)%Z ->
  positive_worth_at get_share_price (k, x) = price * of_int x.
Proof.
  intros Hprice Hx. unfold positive_worth_at. simpl.
  rewrite bool_decide_eq_true_2 by done. by apply worth_at_priced.
Qed.

Lemma positive_worth_after_buy (h : gmap string Z) k q price :
  holdings_positive h -> (0 < q)%Z ->
  get_share_price k = Some price ->
  value_with (positive_worth_at get_share_price)
    (map_to_list (<[k := (get0 h k + q)%Z]> h))
  = value_with (positive_worth_at get_share_price) (map_to_list h)
    + price * of_int q.
Proof.
  intros Hpos Hq Hprice. pose proof (holdings_positive_get0 h k Hpos) as Hget.
  rewrite value_with_insert, (positive_worth_at_priced _ _ price) by (done || lia).
  unfold get0 in *. destruct (h !! k) as [x |] eqn:Hlook; simpl in *.
  - rewrite (value_with_lookup _ h k x) by done.
    rewrite (positive_worth_at_priced _ _ price) by (done || by eapply Hpos).
    rewrite of_int_add. ring.
  - rewrite value_with_absent by done. rewrite of_int_add, of_int_0. ring.
Qed.

Lemma positive_worth_after_sell (h : gmap string Z) k q held price :
  (0 < q)%Z -> (q <= held)%Z ->
  h !! k = Some held ->
  get_share_price k = Some price ->
  value_with (positive_worth_at get_share_price)
    (map_to_list (if bool_decide (held - q = 0)%Z then delete k h
                  else <[k := (held - q)%Z]> h))
  = value_with (positive_worth_at get_share_price) (map_to_list h)
    - price * of_int q.
Proof.
  intros Hq Hle Hlook Hprice.
  rewrite (value_with_lookup _ h k held) by done.
  rewrite (positive_worth_at_priced _ _ price) by (done || lia).
  case_bool_decide as Hz.
  - replace held with q by lia. ring.
  - rewrite value_with_insert, (positive_worth_at_priced _ _ price)
      by (done || lia).
    rewrite of_int_sub. ring.
Qed.

(** The three loops, as sums. *)
Lemma tested_sum_items_spec items total :
  TestAccounts.sum_items get_share_price items total
  = total + value_with (worth_at get_share_price) items.
Proof.
  revert total. induction items as [| [s q] rest IH]; intros total; simpl.
  - ring.
  - unfold worth_at at 1. simpl.
    destruct (get_share_price s) as [price |]; rewrite IH; ring.
Qed.

Lemma working_sum_items_spec items total self :
  match AccountsWorking.sum_items get_share_price items total self with
  | (Returned v, self') =>
      self' = self
      /\ v = total + value_with (worth_at get_share_price) items
      /\ Forall (fun item => is_Some (get_share_price item.1)) items
  | (Raised c k, self') =>
      self' = self /\ c = ValueError /\ k = UnknownSymbol
      /\ Exists (fun item => get_share_price item.1 = None) items
  end.
Proof.
  revert total. induction items as [| [s q] rest IH]; intros total; simpl.
  - method_unfold. repeat split; [ring | constructor].
  - method_unfold. unfold worth_at at 1. simpl.
    destruct (get_share_price s) as [price |] eqn:Hprice; simpl.
    + specialize (IH (total + price * of_int q)).
      destruct (AccountsWorking.sum_items get_share_price rest
                  (total + price * of_int q) self) as [[v | c k] self'].
      * destruct IH as (-> & -> & Hall). repeat split; [ring |].
        constructor; [simpl; rewrite Hprice; by eexists | done].
      * destruct IH as (-> & -> & -> & Hex). repeat split.
        by apply Exists_cons_tl.
    + repeat split. by apply Exists_cons_hd.
Qed.

Lemma accounts_sum_items_spec items total self :
  match Accounts.sum_items get_share_price items total self with
  | (Returned v, self') =>
      self' = self
      /\ v = total + value_with (positive_worth_at get_share_price) items
      /\ Forall (fun item => (0 < item.2)%Z -> is_Some (get_share_price item.1))
           items
  | (Raised c k, self') =>
      self' = self /\ c = ValueError /\ k = UnknownSymbol
      /\ Exists (fun item => (0 < item.2)%Z /\ get_share_price item.1 = None)
           items
  end.
Proof.
  revert total. induction items as [| [s q] rest IH]; intros total; simpl.
  - method_unfold. repeat split; [ring | constructor].
  - unfold positive_worth_at at 1, worth_at at 1. simpl.
    case_bool_decide as Hq.
    + method_unfold.
      destruct (get_share_price s) as [price |] eqn:Hprice; simpl.
      * specialize (IH (total + price * of_int q)).
        destruct (Accounts.sum_items get_share_price rest
                    (total + price * of_int q) self) as [[v | c k] self'].
        -- destruct IH as (-> & -> & Hall). repeat split; [ring |].
           constructor; [simpl; rewrite Hprice; by eexists | done].
        -- destruct IH as (-> & -> & -> & Hex). repeat split.
           by apply Exists_cons_tl.
      * repeat split. by apply Exists_cons_hd.
    + specialize (IH total).
      destruct (Accounts.sum_items get_share_price rest total self)
        as [[v | c k] self'].
      * destruct IH as (-> & -> & Hall). repeat split; [ring |].
        constructor; [simpl; intros; lia | done].
      * destruct IH as (-> & -> & -> & Hex). repeat split.
        by apply Exists_cons_tl.
Qed.
End Worth.

Section ValuationSpec.
Variable get_share_price : oracle.

Lemma holdings_priced_items (h : gmap string Z) :
  Forall (fun item => is_Some (get_share_price item.1)) (map_to_list h)
  <-> holdings_priced get_share_price h.
Proof.
  rewrite Forall_forall. split.
  - intros Hall s held Hlook.
    by apply (Hall (s, held)), elem_of_map_to_list.
  - intros Hpriced [s held] Hin. apply elem_of_map_to_list in Hin.
    by apply (Hpriced s held).
Qed.

(** accounts_working.py: the holdings value, where it returns. *)
Lemma working_holdings_value_returns self :
  holdings_priced get_share_price (AccountsWorking.holdings self) ->
  AccountsWorking.calculate_current_holdings_value get_share_price self
  = (Returned
       (value_with (worth_at get_share_price)
          (map_to_list (AccountsWorking.holdings self))),
     self).
Proof.
  intros Hpriced. apply holdings_priced_items in Hpriced.
  unfold AccountsWorking.calculate_current_holdings_value. method_unfold.
  pose proof (working_sum_items_spec get_share_price
                (map_to_list (AccountsWorking.holdings self)) 0 self) as Hspec.
  destruct (AccountsWorking.sum_items get_share_price
              (map_to_list (AccountsWorking.holdings self)) 0 self)
    as [[v | c k] self'].
  - destruct Hspec as (-> & -> & _). f_equal. f_equal. ring.
  - destruct Hspec as (_ & _ & _ & Hex). apply Exists_exists in Hex.
    destruct Hex as (item & Hin & Hnone).
    rewrite Forall_forall in Hpriced. apply Hpriced in Hin.
    rewrite Hnone in Hin. by destruct Hin.
Qed.

Lemma working_portfolio_value_returns self :
  holdings_priced get_share_price (AccountsWorking.holdings self) ->
  AccountsWorking.calculate_portfolio_value get_share_price self
  = (Returned
       (AccountsWorking.cash_balance self
        + value_with (worth_at get_share_price)
            (map_to_list (AccountsWorking.holdings self))),
     self).
Proof.
  intros Hpriced. unfold AccountsWorking.calculate_portfolio_value.
  pose proof (working_holdings_value_returns self Hpriced) as Hvalue.
  method_unfold. simpl. by rewrite Hvalue.
Qed.



Lemma accounts_portfolio_value_returns self :
  (forall symbol held,
     Accounts.holdings self !! symbol = Some held -> (0 < held)%Z ->
     is_Some (get_share_price symbol)) ->
  exists value,
    Accounts.calculate_portfolio_value get_share_price self
    = (Returned value, self)
    /\ Accounts.cash_value value = Accounts.balance self
    /\ Accounts.total_value value
       = Accounts.balance self
         + value_with (positive_worth_at get_share_price)
             (map_to_list (Accounts.holdings self)).
Proof.
  intros Hpriced.
  unfold Accounts.calculate_portfolio_value.
  pose proof (accounts_sum_items_spec get_share_price
                (map_to_list (Accounts.holdings self)) 0 self) as Hspec.
  method_unfold. simpl.
  destruct (Accounts.sum_items get_share_price
              (map_to_list (Accounts.holdings self)) 0 self)
    as [[v0 | c k] self0]; simpl.
  - destruct Hspec as (-> & -> & _). eexists. split; [reflexivity |].
    simpl. split; [reflexivity | ring].
  - destruct Hspec as (_ & _ & _ & Hex). apply Exists_exists in Hex.
    destruct Hex as ([s held] & Hin & Hheld & Hnone). simpl in *.
    apply elem_of_map_to_list in Hin.
    destruct (Hpriced s held Hin Hheld) as [price Hprice]. congruence.
Qed.
End ValuationSpec.

(** X13. calculate_current_holdings_value of accounts_working.py never
    changes the account; it returns exactly when every held symbol has a
    price, and its value is then the one the graceful loop of the tested
    class gives; otherwise it raises ValueError, and some held symbol has
    no price. *)
Theorem holdings_value_characterised (get_share_price : oracle)
    (self : AccountsWorking.Account) :
  match AccountsWorking.calculate_current_holdings_value get_share_price self
  with
  | (Returned v, self') =>
      self' = self
      /\ holdings_priced get_share_price (AccountsWorking.holdings self)
      /\ v = TestAccounts.calculate_current_holdings_value get_share_price
               (AccountsWorking.holdings self)
  | (Raised c k, self') =>
      self' = self /\ c = ValueError /\ k = UnknownSymbol
      /\ exists symbol held,
           AccountsWorking.holdings self !! symbol = Some held
           /\ get_share_price symbol = None
  end.
Proof.
  unfold AccountsWorking.calculate_current_holdings_value,
    TestAccounts.calculate_current_holdings_value.
  rewrite tested_sum_items_spec.
  pose proof (working_sum_items_spec get_share_price
                (map_to_list (AccountsWorking.holdings self)) 0 self) as Hspec.
  method_unfold.
  destruct (AccountsWorking.sum_items get_share_price
              (map_to_list (AccountsWorking.holdings self)) 0 self)
    as [[v | c k] self'].
  - destruct Hspec as (-> & -> & Hall).
    repeat split. by apply holdings_priced_items.
  - destruct Hspec as (-> & -> & -> & Hex). repeat split.
    apply Exists_exists in Hex. destruct Hex as ([s held] & Hin & Hnone).
    exists s, held. split; [by apply elem_of_map_to_list | done].
Qed.

(** ** Trades at the quoted price *)

Section TradeValue.
Variable get_share_price : oracle.

Lemma holdings_priced_bought (h : gmap string Z) k x :
  holdings_priced get_share_price h ->
  is_Some (get_share_price k) ->
  holdings_priced get_share_price (<[k := x]> h).
Proof.
  intros Hpriced Hk s held. rewrite lookup_insert. case_decide as Heq.
  - intros _. by rewrite <- Heq.
  - apply Hpriced.
Qed.

Lemma holdings_priced_sold (h : gmap string Z) k x (b : bool) :
  holdings_priced get_share_price h ->
  is_Some (get_share_price k) ->
  holdings_priced get_share_price (if b then delete k h else <[k := x]> h).
Proof.
  intros Hpriced Hk. destruct b; [| by apply holdings_priced_bought].
  intros s held. rewrite lookup_delete. case_decide; [done | apply Hpriced].
Qed.




End TradeValue.



(** ** The books over any sequence of calls *)

Lemma sum_cash_flows_snoc history t :
  sum_cash_flows (history ++ [t])
  = sum_cash_flows history
    + (if bool_decide (AccountsWorking.type t = "Deposit")
          || bool_decide (AccountsWorking.type t = "Withdrawal")
       then AccountsWorking.cash_impact t else 0).
Proof.
  unfold sum_cash_flows. induction history as [| t' rest IH]; simpl.
  - ring.
  - rewrite IH. ring.
Qed.

Lemma sum_withdrawals_snoc transactions t :
  sum_withdrawals (transactions ++ [t])
  = sum_withdrawals transactions
    + (if bool_decide (Accounts.type t = "WITHDRAW")
       then Accounts.amount t else 0).
Proof.
  unfold sum_withdrawals. induction transactions as [| t' rest IH]; simpl.
  - ring.
  - rewrite IH. ring.
Qed.

Lemma books_step (c v i f c' v' i' f' : Qc) :
  c + v = i + f ->
  c' + v' - (c + v) = i' + f' - (i + f) ->
  c' + v' = i' + f'.
Proof.
  intros Hbefore Hstep.
  replace (c' + v') with (c' + v' - (c + v) + (c + v)) by ring.
  rewrite Hstep, Hbefore. ring.
Qed.

(** Rewrites the tests on the literal type of a record just appended. *)
Ltac record_type :=
  rewrite ?bool_decide_eq_true_2 by reflexivity;
  rewrite ?bool_decide_eq_false_2 by discriminate;
  simpl.

Section Books.
Variable get_share_price : oracle.

Lemma working_invoke_keeps_books now c self :
  working_books get_share_price self ->
  working_books get_share_price
    (snd (AccountsWorking.invoke get_share_price now c self)).
Proof.
  intros [Hpriced Hsum]. destruct c as [amount | amount | s q | s q]; simpl.
  - unfold AccountsWorking.deposit, AccountsWorking.append. method_unfold.
    method_cases; simpl; [by split |].
    split; [done |]. simpl. rewrite sum_cash_flows_snoc. record_type.
    apply (books_step _ _ _ _ _ _ _ _ Hsum). ring.
  - unfold AccountsWorking.withdraw, AccountsWorking.append. method_unfold.
    method_cases; simpl; try (by split).
    split; [done |]. simpl. rewrite sum_cash_flows_snoc. record_type.
    apply (books_step _ _ _ _ _ _ _ _ Hsum). ring.
  - pose proof (working_invoke_all_or_nothing get_share_price now
                  (AccountsWorking.Buy s q) self) as Hall.
    pose proof (working_buy_guards get_share_price now s q self) as Hguards.
    simpl in Hall.
    destruct (AccountsWorking.buy_shares get_share_price now s q self)
      as [[[] | e k] self'] eqn:Hbuy; simpl in *; [| subst; by split].
    destruct Hguards as (Hq & price & Hprice & Hcost); [done |].
    rewrite (working_buy_returns _ now s q price self) in Hbuy by done.
    injection Hbuy as <-. split; simpl.
    + apply holdings_priced_bought; [done | by rewrite Hprice].
    + rewrite sum_cash_flows_snoc. record_type.
      rewrite (worth_after_buy _ _ _ _ price) by done.
      apply (books_step _ _ _ _ _ _ _ _ Hsum). ring.
  - pose proof (working_invoke_all_or_nothing get_share_price now
                  (AccountsWorking.Sell s q) self) as Hall.
    pose proof (working_sell_guards get_share_price now s q self) as Hguards.
    simpl in Hall.
    destruct (AccountsWorking.sell_shares get_share_price now s q self)
      as [[[] | e k] self'] eqn:Hsell; simpl in *; [| subst; by split].
    destruct Hguards as (Hq & held & price & Hlook & Hheld & Hprice); [done |].
    rewrite (working_sell_returns _ now s q price held self) in Hsell by done.
    injection Hsell as <-. split; simpl.
    + apply holdings_priced_sold; [done | by rewrite Hprice].
    + rewrite sum_cash_flows_snoc. record_type.
      rewrite (worth_after_sell _ _ _ _ held price) by done.
      apply (books_step _ _ _ _ _ _ _ _ Hsum). ring.
Qed.

Lemma accounts_invoke_keeps_books now c self :
  accounts_books get_share_price self ->
  accounts_books get_share_price
    (snd (Accounts.invoke get_share_price now c self)).
Proof.
  intros (Hpos & Hpriced & Hsum).
  destruct c as [amount | amount | s q | s q]; simpl.
  - unfold Accounts.deposit, Accounts._record_transaction. method_unfold.
    method_cases; simpl; [by repeat split |].
    split; [done |]. split; [done |]. simpl.
    rewrite sum_withdrawals_snoc. record_type.
    apply (books_step _ _ _ _ _ _ _ _ Hsum). ring.
  - unfold Accounts.withdraw, Accounts._record_transaction. method_unfold.
    method_cases; simpl; try (by repeat split).
    split; [done |]. split; [done |]. simpl.
    rewrite sum_withdrawals_snoc. record_type.
    apply (books_step _ _ _ _ _ _ _ _ Hsum). ring.
  - pose proof (accounts_invoke_all_or_nothing get_share_price now
                  (Accounts.Buy s q) self) as Hall.
    pose proof (accounts_buy_guards get_share_price now s q self) as Hguards.
    simpl in Hall.
    destruct (Accounts.buy_shares get_share_price now s q self)
      as [[[] | e k] self'] eqn:Hbuy; simpl in *; [| subst; by repeat split].
    destruct Hguards as (Hq & price & Hprice & Hcost); [done |].
    rewrite (accounts_buy_returns _ now s q price self) in Hbuy by done.
    injection Hbuy as <-. repeat apply conj; simpl.
    + by apply holdings_positive_bought.
    + apply holdings_priced_bought; [done | by rewrite Hprice].
    + rewrite sum_withdrawals_snoc. record_type.
      rewrite (positive_worth_after_buy _ _ _ _ price) by done.
      apply (books_step _ _ _ _ _ _ _ _ Hsum). ring.
  - pose proof (accounts_invoke_all_or_nothing get_share_price now
                  (Accounts.Sell s q) self) as Hall.
    pose proof (accounts_sell_guards get_share_price now s q self) as Hguards.
    simpl in Hall.
    destruct (Accounts.sell_shares get_share_price now s q self)
      as [[[] | e k] self'] eqn:Hsell; simpl in *; [| subst; by repeat split].
    destruct Hguards as (Hq & held & price & Hlook & Hheld & Hprice); [done |].
    rewrite (accounts_sell_returns _ now s q price held self) in Hsell by done.
    injection Hsell as <-. repeat apply conj; simpl.
    + by apply holdings_positive_sold.
    + apply holdings_priced_sold; [done | by rewrite Hprice].
    + rewrite sum_withdrawals_snoc. record_type.
      rewrite (positive_worth_after_sell _ _ _ _ held price) by done.
      apply (books_step _ _ _ _ _ _ _ _ Hsum). ring.
Qed.

Lemma working_run_keeps_books cs self :
  working_books get_share_price self ->
  working_books get_share_price (AccountsWorking.run get_share_price cs self).
Proof.
  revert self. induction cs as [| [now c] cs IH]; intros self Hbooks; simpl.
  - done.
  - apply IH. by apply working_invoke_keeps_books.
Qed.

Lemma accounts_run_keeps_books cs self :
  accounts_books get_share_price self ->
  accounts_books get_share_price (Accounts.run get_share_price cs self).
Proof.
  revert self. induction cs as [| [now c] cs IH]; intros self Hbooks; simpl.
  - done.
  - apply IH. by apply accounts_invoke_keeps_books.
Qed.

Lemma working_fresh_books name d :
  working_books get_share_price (AccountsWorking.__init__ name d).
Proof.
  split; simpl.
  - intros s held. by rewrite lookup_empty.
  - rewrite map_to_list_empty. simpl. ring.
Qed.

Lemma accounts_fresh_books account_id :
  accounts_books get_share_price (Accounts.__init__ account_id).
Proof.
  repeat apply conj; simpl.
  - intros s held. by rewrite lookup_empty.
  - intros s held. by rewrite lookup_empty.
  - rewrite map_to_list_empty. simpl. ring.
Qed.
End Books.

(** X15. With one price function throughout, reporting never fails on an
    account the calls have produced: after any sequence of calls on a
    fresh account every held symbol has a price, so on accounts_working.py
    calculate_current_holdings_value and calculate_portfolio_value return
    (the latter cash plus the former), and on accounts.py
    calculate_portfolio_value returns, with cash_value the balance and
    total_value the sum of its two parts; none changes the account. *)
Theorem valuation_returns_after_any_calls (get_share_price : oracle) :
  (forall cs name d,
     let final :=
       AccountsWorking.run get_share_price cs (AccountsWorking.__init__ name d)
     in
     holdings_priced get_share_price (AccountsWorking.holdings final)
     /\ exists v,
          AccountsWorking.calculate_current_holdings_value get_share_price final
          = (Returned v, final)
          /\ AccountsWorking.calculate_portfolio_value get_share_price final
             = (Returned (AccountsWorking.cash_balance final + v), final))
  /\
  (forall cs account_id,
     let final :=
       Accounts.run get_share_price cs (Accounts.__init__ account_id) in
     holdings_priced get_share_price (Accounts.holdings final)
     /\ exists value,
          Accounts.calculate_portfolio_value get_share_price final
          = (Returned value, final)
          /\ Accounts.cash_value value = Accounts.balance final
          /\ Accounts.total_value value
             = Accounts.cash_value value + Accounts.stock_value value).
Proof.
  split.
  - intros cs name d final.
    destruct (working_run_keeps_books get_share_price cs _
                (working_fresh_books get_share_price name d))
      as [Hpriced _].
    fold final in Hpriced. split; [done |]. eexists. split.
    + by apply working_holdings_value_returns.
    + by apply working_portfolio_value_returns.
  - intros cs account_id final.
    destruct (accounts_run_keeps_books get_share_price cs _
                (accounts_fresh_books get_share_price account_id))
      as (_ & Hpriced & _).
    fold final in Hpriced. split; [done |].
    destruct (accounts_portfolio_value_returns get_share_price final)
      as (value & Hvalue & Hcash & _).
    { intros s held Hlook _. by apply (Hpriced s held). }
    exists value. split; [done |]. split; [done |].
    revert Hvalue. unfold Accounts.calculate_portfolio_value. method_unfold.
    simpl.
    destruct (Accounts.sum_items get_share_price
                (map_to_list (Accounts.holdings final)) 0 final)
      as [[v0 | c k] self0]; simpl; [| discriminate].
    by intros [= <- _].
Qed.



(** ** Reading the holdings *)

(** X17. get_holdings of accounts.py filters out quantities that are not
    positive, and on an account the calls have produced there are none:
    after any sequence of calls on a fresh account it returns the holdings
    themselves and leaves the account as it is. *)
Theorem get_holdings_after_any_calls (get_share_price : oracle)
    (cs : list (Z * Accounts.call)) (account_id : string) :
  let final := Accounts.run get_share_price cs (Accounts.__init__ account_id) in
  Accounts.get_holdings final = (Returned (Accounts.holdings final), final).
Proof.
  intros final.
  destruct (accounts_run_keeps_books get_share_price cs _
              (accounts_fresh_books get_share_price account_id))
    as (Hpos & _).
  fold final in Hpos.
  unfold Accounts.get_holdings, read. f_equal. f_equal.
  apply map_filter_id. intros s held Hlook. simpl. by apply (Hpos s held).
Qed.

(** ** Cash in, cash out *)



(** ** Holdings against the transaction list *)

Lemma working_net_shares_snoc key history t :
  working_net_shares key (history ++ [t])
  = (working_net_shares key history + working_shares_moved key t)%Z.
Proof.
  unfold working_net_shares.
  induction history as [| t' history IH]; simpl; [lia |].
  rewrite IH. lia.
Qed.

Lemma accounts_net_shares_snoc key transactions t :
  accounts_net_shares key (transactions ++ [t])
  = (accounts_net_shares key transactions + accounts_shares_moved key t)%Z.
Proof.
  unfold accounts_net_shares.
  induction transactions as [| t' transactions IH]; simpl; [lia |].
  rewrite IH. lia.
Qed.

Lemma get0_bought (h : gmap string Z) symbol q key :
  get0 (<[symbol := (get0 h symbol + q)%Z]> h) key
  = (get0 h key + if bool_decide (symbol = key) then q else 0)%Z.
Proof.
  unfold get0. case_bool_decide as Hkey.
  - subst key. by rewrite lookup_insert_eq.
  - rewrite lookup_insert_ne by done. lia.
Qed.

Lemma get0_sold (h : gmap string Z) symbol held q key :
  h !! symbol = Some held ->
  get0 (if bool_decide (held - q = 0)%Z
        then delete symbol h
        else <[symbol := (held - q)%Z]> h) key
  = (get0 h key + if bool_decide (symbol = key) then - q else 0)%Z.
Proof.
  intros Hlook. unfold get0.
  destruct (decide (symbol = key)) as [<- | Hkey].
  - rewrite (bool_decide_eq_true_2 (symbol = symbol)) by done.
    rewrite Hlook. simpl. case_bool_decide as Hz.
    + rewrite lookup_delete_eq. simpl. lia.
    + rewrite lookup_insert_eq. simpl. lia.
  - rewrite (bool_decide_eq_false_2 (symbol = key)) by done.
    case_bool_decide as Hz.
    + rewrite lookup_delete_ne by done. lia.
    + rewrite lookup_insert_ne by done. lia.
Qed.

Section Shares.
Variable get_share_price : oracle.

Lemma working_invoke_keeps_shares now c self :
  (forall key, get0 (AccountsWorking.holdings self) key
               = working_net_shares key (AccountsWorking.transaction_history self)) ->
  forall key,
    get0 (AccountsWorking.holdings
            (snd (AccountsWorking.invoke get_share_price now c self))) key
    = working_net_shares key
        (AccountsWorking.transaction_history
           (snd (AccountsWorking.invoke get_share_price now c self))).
Proof.
  intros Hinv key. destruct c as [amount | amount | s q | s q]; simpl.
  - unfold AccountsWorking.deposit, AccountsWorking.append. method_unfold.
    method_cases; simpl; [done |].
    rewrite working_net_shares_snoc, <- Hinv.
    unfold working_shares_moved. simpl. case_bool_decide; lia.
  - unfold AccountsWorking.withdraw, AccountsWorking.append. method_unfold.
    method_cases; simpl; try done.
    rewrite working_net_shares_snoc, <- Hinv.
    unfold working_shares_moved. simpl. case_bool_decide; lia.
  - pose proof (working_invoke_all_or_nothing get_share_price now
                  (AccountsWorking.Buy s q) self) as Hall.
    pose proof (working_buy_guards get_share_price now s q self) as Hguards.
    simpl in Hall.
    destruct (AccountsWorking.buy_shares get_share_price now s q self)
      as [[[] | e k] self'] eqn:Hbuy; simpl in *; [| by subst].
    destruct Hguards as (Hq & price & Hprice & Hcost); [done |].
    rewrite (working_buy_returns _ now s q price self) in Hbuy by done.
    injection Hbuy as <-. simpl.
    rewrite working_net_shares_snoc, <- Hinv, get0_bought.
    unfold working_shares_moved. simpl. reflexivity.
  - pose proof (working_invoke_all_or_nothing get_share_price now
                  (AccountsWorking.Sell s q) self) as Hall.
    pose proof (working_sell_guards get_share_price now s q self) as Hguards.
    simpl in Hall.
    destruct (AccountsWorking.sell_shares get_share_price now s q self)
      as [[[] | e k] self'] eqn:Hsell; simpl in *; [| by subst].
    destruct Hguards as (Hq & held & price & Hlook & Hheld & Hprice); [done |].
    rewrite (working_sell_returns _ now s q price held self) in Hsell by done.
    injection Hsell as <-. simpl.
    rewrite working_net_shares_snoc, <- Hinv, get0_sold by done.
    unfold working_shares_moved. simpl. reflexivity.
Qed.

Lemma accounts_invoke_keeps_shares now c self :
  (forall key, get0 (Accounts.holdings self) key
               = accounts_net_shares key (Accounts.transactions self)) ->
  forall key,
    get0 (Accounts.holdings
            (snd (Accounts.invoke get_share_price now c self))) key
    = accounts_net_shares key
        (Accounts.transactions
           (snd (Accounts.invoke get_share_price now c self))).
Proof.
  intros Hinv key. destruct c as [amount | amount | s q | s q]; simpl.
  - unfold Accounts.deposit, Accounts._record_transaction. method_unfold.
    method_cases; simpl; [done |].
    rewrite accounts_net_shares_snoc, <- Hinv.
    unfold accounts_shares_moved. simpl. lia.
  - unfold Accounts.withdraw, Accounts._record_transaction. method_unfold.
    method_cases; simpl; try done.
    rewrite accounts_net_shares_snoc, <- Hinv.
    unfold accounts_shares_moved. simpl. lia.
  - pose proof (accounts_invoke_all_or_nothing get_share_price now
                  (Accounts.Buy s q) self) as Hall.
    pose proof (accounts_buy_guards get_share_price now s q self) as Hguards.
    simpl in Hall.
    destruct (Accounts.buy_shares get_share_price now s q self)
      as [[[] | e k] self'] eqn:Hbuy; simpl in *; [| by subst].
    destruct Hguards as (Hq & price & Hprice & Hcost); [done |].
    rewrite (accounts_buy_returns _ now s q price self) in Hbuy by done.
    injection Hbuy as <-. simpl.
    rewrite accounts_net_shares_snoc, <- Hinv, get0_bought.
    unfold accounts_shares_moved. simpl. reflexivity.
  - pose proof (accounts_invoke_all_or_nothing get_share_price now
                  (Accounts.Sell s q) self) as Hall.
    pose proof (accounts_sell_guards get_share_price now s q self) as Hguards.
    simpl in Hall.
    destruct (Accounts.sell_shares get_share_price now s q self)
      as [[[] | e k] self'] eqn:Hsell; simpl in *; [| by subst].
    destruct Hguards as (Hq & held & price & Hlook & Hheld & Hprice); [done |].
    rewrite (accounts_sell_returns _ now s q price held self) in Hsell by done.
    injection Hsell as <-. simpl.
    rewrite accounts_net_shares_snoc, <- Hinv, get0_sold by done.
    unfold accounts_shares_moved. simpl. reflexivity.
Qed.

Lemma working_invoke_keeps_upper_case now c self :
  symbols_upper_case self ->
  symbols_upper_case (snd (AccountsWorking.invoke get_share_price now c self)).
Proof.
  intros [Hkeys Hrecords]. destruct c as [amount | amount | s q | s q]; simpl.
  - unfold AccountsWorking.deposit, AccountsWorking.append. method_unfold.
    method_cases; simpl; [by split |].
    split; [done |]. apply Forall_app. split; [done |]. by constructor.
  - unfold AccountsWorking.withdraw, AccountsWorking.append. method_unfold.
    method_cases; simpl; try (by split).
    split; [done |]. apply Forall_app. split; [done |]. by constructor.
  - pose proof (working_invoke_all_or_nothing get_share_price now
                  (AccountsWorking.Buy s q) self) as Hall.
    pose proof (working_buy_guards get_share_price now s q self) as Hguards.
    simpl in Hall.
    destruct (AccountsWorking.buy_shares get_share_price now s q self)
      as [[[] | e k] self'] eqn:Hbuy; simpl in *; [| by subst].
    destruct Hguards as (Hq & price & Hprice & Hcost); [done |].
    rewrite (working_buy_returns _ now s q price self) in Hbuy by done.
    injection Hbuy as <-. split; simpl.
    + apply map_Forall_insert_2; [apply upper_idem | done].
    + apply Forall_app. split; [done |].
      constructor; [apply upper_idem | done].
  - pose proof (working_invoke_all_or_nothing get_share_price now
                  (AccountsWorking.Sell s q) self) as Hall.
    pose proof (working_sell_guards get_share_price now s q self) as Hguards.
    simpl in Hall.
    destruct (AccountsWorking.sell_shares get_share_price now s q self)
      as [[[] | e k] self'] eqn:Hsell; simpl in *; [| by subst].
    destruct Hguards as (Hq & held & price & Hlook & Hheld & Hprice); [done |].
    rewrite (working_sell_returns _ now s q price held self) in Hsell by done.
    injection Hsell as <-. split; simpl.
    + case_bool_decide.
      * by apply map_Forall_delete.
      * apply map_Forall_insert_2; [apply upper_idem | done].
    + apply Forall_app. split; [done |].
      constructor; [apply upper_idem | done].
Qed.

End Shares.

(** X19. The holdings reconcile with the transaction list.  After any
    sequence of calls on a freshly opened account, on either ledger, the
    quantity held of every symbol (0 where the symbol is not a key) is the
    quantity its buy records brought in less the quantity its sell records
    took out. *)
Theorem holdings_reconcile_with_history (get_share_price : oracle) :
  (forall (cs : list (Z * AccountsWorking.call)) (name : string) (d : Qc)
          (key : string),
     let final :=
       AccountsWorking.run get_share_price cs (AccountsWorking.__init__ name d) in
     get0 (AccountsWorking.holdings final) key
     = working_net_shares key (AccountsWorking.transaction_history final))
  /\
  (forall (cs : list (Z * Accounts.call)) (account_id : string) (key : string),
     let final :=
       Accounts.run get_share_price cs (Accounts.__init__ account_id) in
     get0 (Accounts.holdings final) key
     = accounts_net_shares key (Accounts.transactions final)).
Proof.
  split.
  - intros cs name d.
    assert (Hfresh : forall key,
              get0 (AccountsWorking.holdings (AccountsWorking.__init__ name d)) key
              = working_net_shares key
                  (AccountsWorking.transaction_history
                     (AccountsWorking.__init__ name d))) by done.
    revert Hfresh. generalize (AccountsWorking.__init__ name d) as self.
    induction cs as [| [now c] cs IH]; intros self Hinv key; simpl; [done |].
    apply IH. unfold AccountsWorking.step. simpl.
    by apply working_invoke_keeps_shares.
  - intros cs account_id.
    assert (Hfresh : forall key,
              get0 (Accounts.holdings (Accounts.__init__ account_id)) key
              = accounts_net_shares key
                  (Accounts.transactions (Accounts.__init__ account_id)))
      by done.
    revert Hfresh. generalize (Accounts.__init__ account_id) as self.
    induction cs as [| [now c] cs IH]; intros self Hinv key; simpl; [done |].
    apply IH. unfold Accounts.step. simpl.
    by apply accounts_invoke_keeps_shares.
Qed.

(** X20. accounts_working.py stores symbols in upper case only.  After any
    sequence of calls on a freshly opened account, whatever the case of the
    symbols the caller passed, every key of the holdings and the symbol of
    every record is its own upper-case form. *)
Theorem stored_symbols_are_upper_case (get_share_price : oracle)
    (cs : list (Z * AccountsWorking.call)) (name : string) (d : Qc) :
  symbols_upper_case
    (AccountsWorking.run get_share_price cs (AccountsWorking.__init__ name d)).
Proof.
  assert (Hfresh : symbols_upper_case (AccountsWorking.__init__ name d)).
  { split; simpl; [apply map_Forall_empty | constructor]. }
  revert Hfresh. generalize (AccountsWorking.__init__ name d) as self.
  induction cs as [| [now c] cs IH]; intros self Hinv; simpl; [done |].
  apply IH. unfold AccountsWorking.step. simpl.
  by apply working_invoke_keeps_upper_case.
Qed.
